(** * Validation engine of Medical_Study_Extraction

    A shallow embedding of [validate_extraction] (src/main.py, lines 89-139)
    and the properties of its violation list.

    The function receives the object that [json.loads] built from the model's
    answer, so the values it can meet are exactly the JSON values: [None],
    booleans, integers, floats, strings, lists and dicts. *)

From Stdlib Require Import ZArith Ascii String List Bool Lia.
Import ListNotations.

Set Warnings "-register-all".

Local Open Scope string_scope.
Local Open Scope Z_scope.
Local Open Scope list_scope.

(* ===================================================================== *)
(** ** Python values *)
(* ===================================================================== *)

(** A Python float is a NaN, an infinity or a finite binary fraction
    [m * 2^e].  Only comparisons are ever applied to floats here, and IEEE
    comparison of finite values is exact, so the mantissa/exponent pair is
    kept as it is and never rounded. *)
Inductive pyfloat : Type :=
| Fnan
| Finf (negative : bool)
| Ffin (m e : Z).

(** The values [json.loads] produces.  A dict is kept as the list of its
    entries in document order; keys are unique in a Python dict. *)
Inductive value : Type :=
| VNone
| VBool (b : bool)
| VInt (n : Z)
| VFloat (x : pyfloat)
| VStr (s : string)
| VList (items : list value)
| VDict (entries : list (string * value)).

Definition dict : Type := list (string * value).

(** [key in d] *)
Fixpoint dict_contains (d : dict) (key : string) : bool :=
  match d with
  | [] => false
  | (k, _) :: rest => if String.eqb k key then true else dict_contains rest key
  end.

(** [d.get(key)]: the value stored under [key], [None] when there is none. *)
Fixpoint dict_get (d : dict) (key : string) : value :=
  match d with
  | [] => VNone
  | (k, v) :: rest => if String.eqb k key then v else dict_get rest key
  end.

(** The lookup that dict equality uses: it tells a missing key from a
    stored [None]. *)
Fixpoint dict_find (d : dict) (key : string) : option value :=
  match d with
  | [] => None
  | (k, v) :: rest => if String.eqb k key then Some v else dict_find rest key
  end.

(** [d[key] = v] *)
Fixpoint dict_set (key : string) (v : value) (d : dict) : dict :=
  match d with
  | [] => [(key, v)]
  | (k, w) :: rest =>
      if String.eqb k key then (k, v) :: rest else (k, w) :: dict_set key v rest
  end.

(** [v is None] *)
Definition is_none (v : value) : bool :=
  match v with VNone => true | _ => false end.

(** [isinstance(v, int)]: [bool] is a subclass of [int]. *)
Definition isinstance_int (v : value) : bool :=
  match v with VBool _ | VInt _ => true | _ => false end.

(** [isinstance(v, (int, float))] *)
Definition isinstance_int_float (v : value) : bool :=
  match v with VBool _ | VInt _ | VFloat _ => true | _ => false end.

(** [isinstance(v, dict)], handing back the entries. *)
Definition as_dict (v : value) : option dict :=
  match v with VDict entries => Some entries | _ => None end.

(* ===================================================================== *)
(** ** Rich comparison *)
(* ===================================================================== *)

Inductive exn : Type := TypeError.

Inductive result (A : Type) : Type :=
| Ok (a : A)
| Raise (e : exn).
Arguments Ok {A} a.
Arguments Raise {A} e.

(** Numbers as the comparison sees them: [True] and [False] are the
    integers 1 and 0. *)
Inductive number : Type :=
| NInt (n : Z)
| NFloat (x : pyfloat).

Definition as_number (v : value) : option number :=
  match v with
  | VBool b => Some (NInt (Z.b2z b))
  | VInt n => Some (NInt n)
  | VFloat x => Some (NFloat x)
  | _ => None
  end.

(** Exact order of [m1 * 2^e1] and [m2 * 2^e2]. *)
Definition fin_compare (m1 e1 m2 e2 : Z) : comparison :=
  let e := Z.min e1 e2 in
  Z.compare (m1 * 2 ^ (e1 - e)) (m2 * 2 ^ (e2 - e)).

(** [None] is the unordered outcome: a NaN is on one side. *)
Definition float_compare (a b : pyfloat) : option comparison :=
  match a, b with
  | Fnan, _ | _, Fnan => None
  | Finf s1, Finf s2 =>
      Some (if s1 then (if s2 then Eq else Lt) else (if s2 then Gt else Eq))
  | Finf s, Ffin _ _ => Some (if s then Lt else Gt)
  | Ffin _ _, Finf s => Some (if s then Gt else Lt)
  | Ffin m1 e1, Ffin m2 e2 => Some (fin_compare m1 e1 m2 e2)
  end.

(** Python compares an int with a float by value, without rounding the
    int. *)
Definition number_compare (a b : number) : option comparison :=
  match a, b with
  | NInt x, NInt y => Some (Z.compare x y)
  | NInt x, NFloat g => float_compare (Ffin x 0) g
  | NFloat f, NInt y => float_compare f (Ffin y 0)
  | NFloat f, NFloat g => float_compare f g
  end.

(** The two ordering operators the function applies: [>] and [<=]. *)
Inductive cmpop : Type := OpGt | OpLe.

Definition holds (op : cmpop) (c : option comparison) : bool :=
  match op, c with
  | OpGt, Some Gt => true
  | OpLe, Some Lt => true
  | OpLe, Some Eq => true
  | _, _ => false
  end.

Definition is_eq (c : option comparison) : bool :=
  match c with Some Eq => true | _ => false end.

(** [json.loads] hands out one shared NaN object, and a container compares
    its items by identity before it asks [==]. *)
Definition same_nan (a b : value) : bool :=
  match a, b with
  | VFloat Fnan, VFloat Fnan => true
  | _, _ => false
  end.

(** [a == b].  Never raises on JSON values. *)
Fixpoint py_eq (a b : value) {struct a} : bool :=
  match a, b with
  | VNone, VNone => true
  | VStr s, VStr t => String.eqb s t
  | VList l, VList m =>
      (fix items (l m : list value) {struct l} : bool :=
         match l, m with
         | [], [] => true
         | x :: l', y :: m' => (same_nan x y || py_eq x y) && items l' m'
         | _, _ => false
         end) l m
  | VDict d, VDict d' =>
      Nat.eqb (length d) (length d') &&
      (fix entries (d : list (string * value)) {struct d} : bool :=
         match d with
         | [] => true
         | (k, v) :: rest =>
             match dict_find d' k with
             | Some w => (same_nan v w || py_eq v w) && entries rest
             | None => false
             end
         end) d
  | VBool x, _ =>
      match as_number b with
      | Some nb => is_eq (number_compare (NInt (Z.b2z x)) nb)
      | None => false
      end
  | VInt x, _ =>
      match as_number b with
      | Some nb => is_eq (number_compare (NInt x) nb)
      | None => false
      end
  | VFloat x, _ =>
      match as_number b with
      | Some nb => is_eq (number_compare (NFloat x) nb)
      | None => false
      end
  | _, _ => false
  end.

(** [a > b] and [a <= b].  Numbers compare with numbers, strings with
    strings (by code point, which is the byte order of their UTF-8 form),
    lists with lists; every other pairing is a [TypeError]. *)
Fixpoint py_compare (op : cmpop) (a b : value) {struct a} : result bool :=
  match a, b with
  | VStr s, VStr t => Ok (holds op (Some (String.compare s t)))
  | VList l0, VList m0 =>
      (fix items (l m : list value) {struct l} : result bool :=
         match l, m with
         | x :: l', y :: m' =>
             if same_nan x y || py_eq x y then items l' m'
             else py_compare op x y
         | _, _ => Ok (holds op (Some (Nat.compare (length l0) (length m0))))
         end) l0 m0
  | VBool x, _ =>
      match as_number b with
      | Some nb => Ok (holds op (number_compare (NInt (Z.b2z x)) nb))
      | None => Raise TypeError
      end
  | VInt x, _ =>
      match as_number b with
      | Some nb => Ok (holds op (number_compare (NInt x) nb))
      | None => Raise TypeError
      end
  | VFloat x, _ =>
      match as_number b with
      | Some nb => Ok (holds op (number_compare (NFloat x) nb))
      | None => Raise TypeError
      end
  | _, _ => Raise TypeError
  end.

(* ===================================================================== *)
(** ** The state the function runs in *)
(* ===================================================================== *)

(** One call sees the caller's record [data] and owns the list [errors]
    it builds.  A computation yields a value or raises, and leaves a frame
    behind in both cases. *)
Record frame : Type := mkFrame {
  data : dict;
  errors : list string
}.

Definition M (A : Type) : Type := frame -> result A * frame.

Definition ret {A} (a : A) : M A := fun fr => (Ok a, fr).

Definition bind {A B} (m : M A) (k : A -> M B) : M B :=
  fun fr =>
    match m fr with
    | (Ok a, fr') => k a fr'
    | (Raise e, fr') => (Raise e, fr')
    end.

Notation "x <- m ;; k" := (bind m (fun x => k))
  (at level 61, m at next level, right associativity).
Notation "m ;; k" := (bind m (fun _ => k))
  (at level 61, right associativity).

(** A comparison inside the function: its exception, if any, is the
    function's. *)
Definition lift {A} (r : result A) : M A := fun fr => (r, fr).

(** [errors = []] *)
Definition errors_init : M unit :=
  fun fr => (Ok tt, mkFrame (data fr) []).

(** [errors.append(msg)] *)
Definition errors_append (msg : string) : M unit :=
  fun fr => (Ok tt, mkFrame (data fr) (errors fr ++ [msg])).

(** [key in data] *)
Definition data_contains (key : string) : M bool :=
  fun fr => (Ok (dict_contains (data fr) key), fr).

(** [data.get(key)] *)
Definition data_get (key : string) : M value :=
  fun fr => (Ok (dict_get (data fr) key), fr).

(** [return errors] *)
Definition return_errors : M (list string) :=
  fun fr => (Ok (errors fr), fr).

(** [if c: body] *)
Definition when (c : bool) (body : M unit) : M unit :=
  if c then body else ret tt.

(** [for x in xs: body] *)
Fixpoint for_each {A} (xs : list A) (body : A -> M unit) : M unit :=
  match xs with
  | [] => ret tt
  | x :: rest => body x ;; for_each rest body
  end.

(** [a <= b <= c]: the second comparison is evaluated only when the first
    one holds. *)
Definition chained_le (a b c : value) : M bool :=
  first <- lift (py_compare OpLe a b) ;;
  if first then lift (py_compare OpLe b c) else ret false.

(* ===================================================================== *)
(** ** validate_extraction *)
(* ===================================================================== *)

Definition REQUIRED_FIELDS : list string :=
  ["title"; "study_design"; "population"; "sample_size"; "outcome";
   "effect_size"].

Definition validate_extraction : M (list string) :=
  errors_init ;;
  (* Check required fields *)
  for_each REQUIRED_FIELDS (fun field =>
    present <- data_contains field ;;
    when (negb present) (errors_append ("Missing field: " ++ field))) ;;
  (* Check sample size *)
  sample_size <- data_get "sample_size" ;;
  when (negb (is_none sample_size))
    (if negb (isinstance_int sample_size) then
       errors_append "sample_size must be an integer or null"
     else
       nonpos <- lift (py_compare OpLe sample_size (VInt 0)) ;;
       when nonpos (errors_append "sample_size must be > 0")) ;;
  (* Check effect size *)
  effect <- data_get "effect_size" ;;
  match as_dict effect with
  | None => errors_append "effect_size must be an object"
  | Some effect =>
      for_each ["type"; "value"; "lower_ci"; "upper_ci"] (fun key =>
        when (negb (dict_contains effect key))
          (errors_append ("Missing effect_size field: " ++ key))) ;;
      let value := dict_get effect "value" in
      let lower := dict_get effect "lower_ci" in
      let upper := dict_get effect "upper_ci" in
      for_each [("value", value); ("lower_ci", lower); ("upper_ci", upper)]
        (fun '(name, v) =>
           when (negb (is_none v) && negb (isinstance_int_float v))
             (errors_append ("effect_size." ++ name ++ " must be numeric or null"))) ;;
      when (negb (is_none lower) && negb (is_none upper))
        (gt <- lift (py_compare OpGt lower upper) ;;
         when gt (errors_append "lower_ci cannot be greater than upper_ci")) ;;
      when (negb (is_none value) && negb (is_none lower) && negb (is_none upper))
        (inside <- chained_le lower value upper ;;
         when (negb inside)
           (errors_append "effect_size.value must be between lower_ci and upper_ci"))
  end ;;
  return_errors.

(** A call on the record [d]. *)
Definition call (d : dict) : result (list string) * frame :=
  validate_extraction (mkFrame d []).

(** What the caller gets: the returned list, or the exception. *)
Definition validate (d : dict) : result (list string) := fst (call d).

Definition errors_built (d : dict) : list string := errors (snd (call d)).

(* ===================================================================== *)
(** ** Records used by the examples *)
(* ===================================================================== *)

Definition effect_ok : dict :=
  [("type", VStr "OR"); ("value", VFloat (Ffin 3 (-1)));
   ("lower_ci", VFloat (Ffin 1 0)); ("upper_ci", VFloat (Ffin 2 0))].

(** [{title:"T", study_design:"D", population:"P", sample_size:n,
      outcome:"O", effect_size:e}] *)
Definition study (n e : value) : dict :=
  [("title", VStr "T"); ("study_design", VStr "D"); ("population", VStr "P");
   ("sample_size", n); ("outcome", VStr "O"); ("effect_size", e)].

(** [{type:"OR", value:1.5, lower_ci:"a", upper_ci:2.0}] *)
Definition effect_string_bound : dict :=
  [("type", VStr "OR"); ("value", VFloat (Ffin 3 (-1)));
   ("lower_ci", VStr "a"); ("upper_ci", VFloat (Ffin 2 0))].

(** [{type:"OR", value:v, lower_ci:5, upper_ci:2}] *)
Definition effect_reversed (v : value) : dict :=
  [("type", VStr "OR"); ("value", v); ("lower_ci", VInt 5);
   ("upper_ci", VInt 2)].

(** [{lower_ci:"5", upper_ci:"1"}]: neither [type] nor [value], and two
    strings for the bounds, which Python orders as strings. *)
Definition effect_many : dict :=
  [("lower_ci", VStr "5"); ("upper_ci", VStr "1")].

(* ===================================================================== *)
(** ** Calling twice *)
(* ===================================================================== *)


(* ===================================================================== *)
(** ** The seven checks, one by one *)
(* ===================================================================== *)

(** Each check of the specification's sequence as a function of the record
    alone.  The first five cannot fail; the two that compare [lower_ci],
    [value] and [upper_ci] yield their violations or the comparison's
    exception. *)

Definition int_of (v : value) : option Z :=
  match v with
  | VBool b => Some (Z.b2z b)
  | VInt n => Some n
  | _ => None
  end.

Definition effect_of (d : dict) : option dict :=
  as_dict (dict_get d "effect_size").

(** 1. Field presence. *)
Definition missing_field_violations (d : dict) : list string :=
  flat_map
    (fun field =>
       if dict_contains d field then []
       else [("Missing field: " ++ field)%string])
    REQUIRED_FIELDS.

(** 2. Sample size. *)
Definition sample_size_violations (d : dict) : list string :=
  let v := dict_get d "sample_size" in
  if is_none v then []
  else match int_of v with
       | None => ["sample_size must be an integer or null"]
       | Some n => if n <=? 0 then ["sample_size must be > 0"] else []
       end.

(** 3. Effect-size shape. *)
Definition shape_violations (d : dict) : list string :=
  match effect_of d with
  | None => ["effect_size must be an object"]
  | Some _ => []
  end.

(** 4. Effect-size field presence. *)
Definition missing_subfield_violations (d : dict) : list string :=
  match effect_of d with
  | None => []
  | Some e =>
      flat_map
        (fun key =>
           if dict_contains e key then []
           else [("Missing effect_size field: " ++ key)%string])
        ["type"; "value"; "lower_ci"; "upper_ci"]
  end.

(** 5. Effect-size numeric typing. *)
Definition numeric_type_violations (d : dict) : list string :=
  match effect_of d with
  | None => []
  | Some e =>
      flat_map
        (fun name =>
           let v := dict_get e name in
           if is_none v || isinstance_int_float v then []
           else [("effect_size." ++ name ++ " must be numeric or null")%string])
        ["value"; "lower_ci"; "upper_ci"]
  end.

(** 6. CI ordering. *)
Definition ci_check (lower upper : value) : result (list string) :=
  if is_none lower || is_none upper then Ok []
  else match py_compare OpGt lower upper with
       | Ok gt =>
           Ok (if gt then ["lower_ci cannot be greater than upper_ci"]
               else [])
       | Raise x => Raise x
       end.

Definition ci_ordering_violations (d : dict) : result (list string) :=
  match effect_of d with
  | None => Ok []
  | Some e => ci_check (dict_get e "lower_ci") (dict_get e "upper_ci")
  end.

(** 7. Value within the interval. *)
Definition range_check (value lower upper : value) : result (list string) :=
  if is_none value || is_none lower || is_none upper then Ok []
  else match py_compare OpLe lower value with
       | Raise x => Raise x
       | Ok false =>
           Ok ["effect_size.value must be between lower_ci and upper_ci"]
       | Ok true =>
           match py_compare OpLe value upper with
           | Raise x => Raise x
           | Ok le =>
               Ok (if le then []
                   else ["effect_size.value must be between lower_ci and upper_ci"])
           end
       end.

Definition value_in_range_violations (d : dict) : result (list string) :=
  match effect_of d with
  | None => Ok []
  | Some e =>
      range_check (dict_get e "value") (dict_get e "lower_ci")
                  (dict_get e "upper_ci")
  end.

(** The seven checks in their fixed order. *)
Definition check_sequence (d : dict) : result (list string) :=
  match ci_ordering_violations d with
  | Raise x => Raise x
  | Ok ci =>
      match value_in_range_violations d with
      | Raise x => Raise x
      | Ok vr =>
          Ok (missing_field_violations d ++ sample_size_violations d ++
              shape_violations d ++ missing_subfield_violations d ++
              numeric_type_violations d ++ ci ++ vr)
      end
  end.

Definition or_nil (r : result (list string)) : list string :=
  match r with Ok l => l | Raise _ => [] end.

Definition finished {A} (r : result A) : result unit :=
  match r with Ok _ => Ok tt | Raise x => Raise x end.

(** What has been appended when the call ends, normally or not. *)
Definition appended (d : dict) : list string :=
  missing_field_violations d ++ sample_size_violations d ++
  shape_violations d ++ missing_subfield_violations d ++
  numeric_type_violations d ++ or_nil (ci_ordering_violations d) ++
  match ci_ordering_violations d with
  | Ok _ => or_nil (value_in_range_violations d)
  | Raise _ => []
  end.

(* ===================================================================== *)
(** ** Numbers as floats *)
(* ===================================================================== *)

(** An integer is the binary fraction with exponent 0. *)
Definition as_float (n : number) : pyfloat :=
  match n with
  | NInt x => Ffin x 0
  | NFloat f => f
  end.

(* ===================================================================== *)
(** ** Acceptable records *)
(* ===================================================================== *)

(** What a record must satisfy for the violation list to be empty, read off
    the seven checks. *)
Definition acceptable (d : dict) : Prop :=
  (forall field, In field REQUIRED_FIELDS -> dict_contains d field = true) /\
  (dict_get d "sample_size" = VNone \/
   exists n, int_of (dict_get d "sample_size") = Some n /\ 0 < n) /\
  exists e,
    dict_get d "effect_size" = VDict e /\
    (forall key, In key ["type"; "value"; "lower_ci"; "upper_ci"] ->
       dict_contains e key = true) /\
    (forall name, In name ["value"; "lower_ci"; "upper_ci"] ->
       is_none (dict_get e name) || isinstance_int_float (dict_get e name) = true) /\
    (is_none (dict_get e "lower_ci") = false ->
     is_none (dict_get e "upper_ci") = false ->
     py_compare OpGt (dict_get e "lower_ci") (dict_get e "upper_ci") = Ok false) /\
    (is_none (dict_get e "value") = false ->
     is_none (dict_get e "lower_ci") = false ->
     is_none (dict_get e "upper_ci") = false ->
     py_compare OpLe (dict_get e "lower_ci") (dict_get e "value") = Ok true /\
     py_compare OpLe (dict_get e "value") (dict_get e "upper_ci") = Ok true).

(* ===================================================================== *)
(** ** extract_output_text *)
(* ===================================================================== *)

(** The pipeline around the validation (src/main.py, lines 12-82 and
    170-204).  Its exceptions are caught by [except Exception] and only
    printed, so an exception is kept as its class name and its text. *)
Record exception : Type := mkException {
  exc_class : string;
  exc_str : string
}.

Inductive outcome (A : Type) : Type :=
| Returned (a : A)
| Raised (e : exception).
Arguments Returned {A} a.
Arguments Raised {A} e.

Definition and_then {A B} (o : outcome A) (k : A -> outcome B) : outcome B :=
  match o with
  | Returned a => k a
  | Raised e => Raised e
  end.

(** An attribute the code reads with [getattr(obj, name, default)]: the
    object may lack it, hold [None], or hold a value. *)
Inductive attribute (A : Type) : Type :=
| Missing
| IsNone
| Holds (a : A).
Arguments Missing {A}.
Arguments IsNone {A}.
Arguments Holds {A} a.

(** One entry of an output item's [content]. *)
Record part : Type := mkPart {
  type : string;
  text : string
}.

Record item : Type := mkItem {
  content : attribute (list part)
}.

(** The response of the API: [output_text] is [None] when the attribute is
    absent or holds [None]. *)
Record response : Type := mkResponse {
  output_text : option string;
  output : list item
}.

(** Truth value of [hasattr(response, "output_text") and
    response.output_text]. *)
Definition has_output_text (r : response) : bool :=
  match output_text r with
  | Some (String _ _) => true
  | _ => false
  end.

(** [content.type in ("output_text", "text")] *)
Definition is_text_part (c : part) : bool :=
  String.eqb (type c) "output_text" || String.eqb (type c) "text".

(** The inner loop: [Some t] when it returns [t], [None] when it runs to
    its end. *)
Fixpoint scan_content (parts : list part) : option string :=
  match parts with
  | [] => None
  | c :: rest => if is_text_part c then Some (text c) else scan_content rest
  end.

Definition no_text : exception :=
  mkException "RuntimeError" "Could not extract model output text.".

Definition not_iterable : exception :=
  mkException "TypeError" "'NoneType' object is not iterable".

(** The outer loop, and the [raise] after it. *)
Fixpoint scan_output (items : list item) : outcome string :=
  match items with
  | [] => Raised no_text
  | it :: rest =>
      match content it with
      | IsNone => Raised not_iterable
      | Missing => scan_output rest
      | Holds parts =>
          match scan_content parts with
          | Some t => Returned t
          | None => scan_output rest
          end
      end
  end.

Definition extract_output_text (r : response) : outcome string :=
  if has_output_text r then
    match output_text r with
    | Some t => Returned t
    | None => scan_output (output r)
    end
  else scan_output (output r).

(** The parts an iteration over all items meets, in order. *)
Definition parts_of (it : item) : list part :=
  match content it with
  | Holds parts => parts
  | _ => []
  end.

Definition content_is_none (it : item) : bool :=
  match content it with
  | IsNone => true
  | _ => false
  end.

(* ===================================================================== *)
(** ** process_pdf and the loop of main *)
(* ===================================================================== *)

(** The OpenAI client as [process_pdf] uses it: [files_create] opens and
    uploads the PDF and yields the id of the uploaded file,
    [responses_create] sends the fixed prompt with that id. *)
Record client : Type := mkClient {
  files_create : string -> outcome string;
  responses_create : string -> outcome response
}.

(** What the standard library and the operating system contribute:
    [json.loads], the [os.path] functions, whether [open(path, "w")]
    fails, whether [json.dump] of a record into the opened file fails
    (a string that cannot be encoded, a full disk), and the text of the
    exception [validate_extraction] raises on a value. *)
Record platform : Type := mkPlatform {
  json_loads : string -> outcome value;
  basename : string -> string;
  splitext : string -> string * string;
  join : string -> string -> string;
  open_error : string -> option exception;
  dump_error : string -> value -> option exception;
  raised_text : value -> string
}.

Definition process_pdf (c : client) (p : platform) (pdf_path : string)
  : outcome value :=
  and_then (files_create c pdf_path) (fun uploaded_file_id =>
  and_then (responses_create c uploaded_file_id) (fun response =>
  and_then (extract_output_text response) (fun output_text =>
  json_loads p output_text))).

(** [validate_extraction(result)] as the loop sees it.  [json.loads] may
    hand back something else than a dict: on a list or a string the
    membership tests pass and [data.get] raises [AttributeError]; on
    [None], a boolean or a number the first membership test raises
    [TypeError]. *)
Definition validate_result (p : platform) (v : value)
  : outcome (list string) :=
  match v with
  | VDict d =>
      match validate d with
      | Ok errs => Returned errs
      | Raise TypeError => Raised (mkException "TypeError" (raised_text p v))
      end
  | VList _ | VStr _ => Raised (mkException "AttributeError" (raised_text p v))
  | _ => Raised (mkException "TypeError" (raised_text p v))
  end.

(** The files that hold a dumped record, newest first, each with that
    record; the lines printed; the list [results]; the paths of the files
    that hold a text cut short by a failed [json.dump]. *)
Record run : Type := mkRun {
  files : list (string * value);
  console : list string;
  results : list value;
  truncated : list string
}.

Definition print (line : string) (st : run) : run :=
  mkRun (files st) (console st ++ [line]) (results st) (truncated st).

Definition results_append (v : value) (st : run) : run :=
  mkRun (files st) (console st) (results st ++ [v]) (truncated st).

(** What [open(path, "w")] does to the file that was there. *)
Definition unlink (path : string) (fs : list (string * value))
  : list (string * value) :=
  filter (fun entry => negb (String.eqb (fst entry) path)) fs.

Definition forget (path : string) (paths : list string) : list string :=
  filter (fun q => negb (String.eqb q path)) paths.

(** [with open(path, "w") as f: json.dump(result, f)], once [open] has
    succeeded and [json.dump] runs to its end: the file holds the record,
    in place of what it held. *)
Definition dump (path : string) (v : value) (st : run) : run :=
  mkRun ((path, v) :: unlink path (files st)) (console st) (results st)
        (forget path (truncated st)).

(** The same statement when [json.dump] raises: the file has been opened,
    so what it held is gone, and it is left with a text cut short. *)
Definition spoil (path : string) (st : run) : run :=
  mkRun (unlink path (files st)) (console st) (results st)
        (path :: truncated st).

(** The content of the file at [path]. *)
Fixpoint read (fs : list (string * value)) (path : string) : option value :=
  match fs with
  | [] => None
  | (p, v) :: rest => if String.eqb p path then Some v else read rest path
  end.

Definition valid_output_path (p : platform) (pdf : string) : string :=
  join p "output" (fst (splitext p (basename p pdf)) ++ ".json").

Definition invalid_output_path (p : platform) (pdf : string) : string :=
  join p "invalid_output" (fst (splitext p (basename p pdf)) ++ ".json").

(** The path a document's record goes to, given its violation list. *)
Definition routed_path (p : platform) (pdf : string) (errs : list string)
  : string :=
  if Nat.eqb (length errs) 0 then valid_output_path p pdf
  else invalid_output_path p pdf.

(** The body of the [try]: the exception it ends with, if any, and the
    state it leaves. *)
Definition try_body (c : client) (p : platform) (pdf : string) (st : run)
  : option exception * run :=
  match process_pdf c p pdf with
  | Raised e => (Some e, st)
  | Returned result =>
      match validate_result p result with
      | Raised e => (Some e, st)
      | Returned error_check =>
          let st := results_append result st in
          if Nat.eqb (length error_check) 0 then
            match open_error p (valid_output_path p pdf) with
            | Some e => (Some e, st)
            | None =>
                match dump_error p (valid_output_path p pdf) result with
                | Some e => (Some e, spoil (valid_output_path p pdf) st)
                | None =>
                    (None,
                     print ("[OK] Saved → " ++ valid_output_path p pdf)
                       (dump (valid_output_path p pdf) result st))
                end
            end
          else
            match open_error p (invalid_output_path p pdf) with
            | Some e => (Some e, st)
            | None =>
                match dump_error p (invalid_output_path p pdf) result with
                | Some e => (Some e, spoil (invalid_output_path p pdf) st)
                | None =>
                    (None,
                     print ("[Invalid] Saved → " ++ invalid_output_path p pdf)
                       (dump (invalid_output_path p pdf) result st))
                end
            end
      end
  end.

(** One turn of the loop. *)
Definition document (c : client) (p : platform) (st : run) (pdf : string)
  : run :=
  let st := print ("[INFO] Processing " ++ pdf ++ "...") st in
  match try_body c p pdf st with
  | (None, st') => st'
  | (Some e, st') =>
      print ("[ERROR] Failed on " ++ pdf ++ ": " ++ exc_str e) st'
  end.

(** [for pdf in args.pdfs: ...] *)
Definition main_loop (c : client) (p : platform) (pdfs : list string)
  (st : run) : run :=
  fold_left (document c p) pdfs st.

(** What a document contributes to [results]. *)
Definition validated (c : client) (p : platform) (pdf : string)
  : list value :=
  match process_pdf c p pdf with
  | Returned result =>
      match validate_result p result with
      | Returned _ => [result]
      | Raised _ => []
      end
  | Raised _ => []
  end.



(* ===================================================================== *)
(** ** A client and a platform for the examples *)
(* ===================================================================== *)

(** The text of a record as the model writes it, with the texts of its
    [sample_size] and of its [lower_ci] left open. *)
Definition quoted (s : string) : string :=
  String (Ascii.ascii_of_nat 34) (s ++ String (Ascii.ascii_of_nat 34) "").

Definition study_text (sample_size lower_ci : string) : string :=
  "{" ++ quoted "title" ++ ": " ++ quoted "T" ++ ", " ++
  quoted "study_design" ++ ": " ++ quoted "D" ++ ", " ++
  quoted "population" ++ ": " ++ quoted "P" ++ ", " ++
  quoted "sample_size" ++ ": " ++ sample_size ++ ", " ++
  quoted "outcome" ++ ": " ++ quoted "O" ++ ", " ++
  quoted "effect_size" ++ ": {" ++
  quoted "type" ++ ": " ++ quoted "OR" ++ ", " ++
  quoted "value" ++ ": 1.5, " ++
  quoted "lower_ci" ++ ": " ++ lower_ci ++ ", " ++
  quoted "upper_ci" ++ ": 2.0}}".

(** The upload yields the path as the file id, and the response carries
    the text of the document's record as its [output_text]; for a
    document it does not know, the model answers in prose. *)
Definition sample_client : client :=
  mkClient
    (fun pdf_path => Returned pdf_path)
    (fun file_id =>
       Returned
         (mkResponse
            (Some
               (if String.eqb file_id "good.pdf" then study_text "30" "1.0"
                else if String.eqb file_id "low.pdf" then study_text "-5" "1.0"
                else if String.eqb file_id "bad.pdf" then
                  study_text "30" (quoted "a")
                else if String.eqb file_id "a/trial.pdf" then
                  study_text "30" "1.0"
                else if String.eqb file_id "b/trial.pdf" then
                  study_text "40" "1.0"
                else "No study found."))
            [])).

(** A client whose responses carry no text at all. *)
Definition silent_client : client :=
  mkClient (fun pdf_path => Returned pdf_path)
           (fun file_id => Returned (mkResponse None [mkItem Missing])).

(** [os.path.basename] on a POSIX path: what follows the last slash. *)
Fixpoint has_char (c : Ascii.ascii) (s : string) : bool :=
  match s with
  | EmptyString => false
  | String a rest => Ascii.eqb a c || has_char c rest
  end.

Fixpoint posix_basename (s : string) : string :=
  match s with
  | EmptyString => EmptyString
  | String a rest =>
      if has_char "/"%char (String a rest) then posix_basename rest
      else String a rest
  end.

(** [os.path.splitext] on a name that does not begin with a dot: the
    name is cut at its last dot. *)
Fixpoint root_of (s : string) : string :=
  match s with
  | EmptyString => EmptyString
  | String a rest =>
      if has_char "."%char rest then String a (root_of rest)
      else if Ascii.eqb a "."%char then EmptyString
      else String a (root_of rest)
  end.

Fixpoint ext_of (s : string) : string :=
  match s with
  | EmptyString => EmptyString
  | String a rest =>
      if has_char "."%char rest then ext_of rest
      else if Ascii.eqb a "."%char then String a rest
      else ext_of rest
  end.

(** Three more records. *)
Definition effect_two_strings : dict :=
  [("type", VStr "OR"); ("value", VStr "a"); ("lower_ci", VStr "b");
   ("upper_ci", VInt 2)].

Definition effect_bools (value lower upper : bool) : dict :=
  [("type", VStr "OR"); ("value", VBool value); ("lower_ci", VBool lower);
   ("upper_ci", VBool upper)].

Definition effect_bool_float : dict :=
  [("type", VStr "OR"); ("value", VInt 1); ("lower_ci", VBool true);
   ("upper_ci", VFloat (Ffin 1 (-1)))].

(** [json_loads] on the texts above; the paths are POSIX paths, every
    file can be opened and every record dumped. *)
Definition sample_platform : platform :=
  mkPlatform
    (fun s =>
       if String.eqb s (study_text "30" "1.0") then
         Returned (VDict (study (VInt 30) (VDict effect_ok)))
       else if String.eqb s (study_text "-5" "1.0") then
         Returned (VDict (study (VInt (-5)) (VDict effect_ok)))
       else if String.eqb s (study_text "40" "1.0") then
         Returned (VDict (study (VInt 40) (VDict effect_ok)))
       else if String.eqb s (study_text "30" (quoted "a")) then
         Returned (VDict (study (VInt 30) (VDict effect_string_bound)))
       else
         Raised (mkException "JSONDecodeError"
                   "Expecting value: line 1 column 1 (char 0)"))
    posix_basename
    (fun name => (root_of name, ext_of name))
    (fun a b => (a ++ "/" ++ b)%string)
    (fun _ => None)
    (fun _ _ => None)
    (fun _ => "'>' not supported between instances of 'str' and 'float'").

Definition empty_run : run := mkRun [] [] [] [].

(* ===================================================================== *)
(** ** Running the function *)
(* ===================================================================== *)

Example study_30 : validate (study (VInt 30) (VDict effect_ok)) = Ok [].
Proof. reflexivity. Qed.

Lemma frame_eta (fr : frame) : mkFrame (data fr) (errors fr ++ []) = fr.
Proof. destruct fr; cbn. now rewrite app_nil_r. Qed.

(** One step of a sequence, once the first statement is known. *)
Lemma bind_run {A B} (m : M A) (k : A -> M B) (fr fr' : frame) (r : result A) :
  m fr = (r, fr') ->
  bind m k fr = match r with
                | Ok a => k a fr'
                | Raise e => (Raise e, fr')
                end.
Proof. intros H. unfold bind. now rewrite H. Qed.

(** A loop whose body only appends, appends the bodies' lists in order. *)
Lemma for_each_appends {A} (g : A -> dict -> list string) (body : A -> M unit) :
  (forall x fr,
      body x fr = (Ok tt, mkFrame (data fr) (errors fr ++ g x (data fr)))) ->
  forall xs fr,
    for_each xs body fr =
    (Ok tt, mkFrame (data fr)
                    (errors fr ++ flat_map (fun x => g x (data fr)) xs)).
Proof.
  intros Hbody xs.
  induction xs as [|x rest IH]; intros fr.
  - cbn. now rewrite frame_eta.
  - cbn [for_each flat_map].
    rewrite (bind_run _ _ _ _ _ (Hbody x fr)).
    rewrite IH. cbn [data errors].
    now rewrite <- app_assoc.
Qed.

Lemma when_appends (c : bool) (msg : string) (fr : frame) :
  when c (errors_append msg) fr =
  (Ok tt, mkFrame (data fr) (errors fr ++ if c then [msg] else [])).
Proof.
  destruct c; cbn.
  - reflexivity.
  - now rewrite frame_eta.
Qed.

Lemma le_zero (n : Z) : holds OpLe (Some (n ?= 0)) = (n <=? 0).
Proof. unfold Z.leb. now destruct (n ?= 0). Qed.

(** The sample-size block appends what check 2 lists, and cannot fail:
    the comparison with 0 is only reached on an integer. *)
Lemma sample_size_step (v : value) (fr : frame) :
  when (negb (is_none v))
    (if negb (isinstance_int v) then
       errors_append "sample_size must be an integer or null"
     else
       nonpos <- lift (py_compare OpLe v (VInt 0)) ;;
       when nonpos (errors_append "sample_size must be > 0")) fr =
  (Ok tt,
   mkFrame (data fr)
     (errors fr ++
      if is_none v then []
      else match int_of v with
           | None => ["sample_size must be an integer or null"]
           | Some n => if n <=? 0 then ["sample_size must be > 0"] else []
           end)).
Proof.
  destruct v as [|b|n|x|s|l|e]; cbn [is_none negb when isinstance_int int_of];
    try reflexivity.
  - now rewrite frame_eta.
  - unfold bind, lift. cbn [py_compare as_number number_compare].
    rewrite le_zero. apply when_appends.
  - unfold bind, lift. cbn [py_compare as_number number_compare].
    rewrite le_zero. apply when_appends.
Qed.

(** The CI-ordering block: it appends what check 6 lists, or ends in the
    comparison's exception with nothing appended. *)
Lemma ci_step (lower upper : value) (fr : frame) :
  when (negb (is_none lower) && negb (is_none upper))
    (gt <- lift (py_compare OpGt lower upper) ;;
     when gt (errors_append "lower_ci cannot be greater than upper_ci")) fr =
  (finished (ci_check lower upper),
   mkFrame (data fr) (errors fr ++ or_nil (ci_check lower upper))).
Proof.
  unfold ci_check.
  generalize "lower_ci cannot be greater than upper_ci". intros msg.
  destruct (is_none lower), (is_none upper); cbn [negb andb orb when];
    try (cbn; now rewrite frame_eta).
  unfold bind, lift.
  destruct (py_compare OpGt lower upper) as [[|]|[]]; cbn;
    now rewrite ?frame_eta.
Qed.

(** The value-in-range block, likewise for check 7. *)
Lemma range_step (value lower upper : value) (fr : frame) :
  when (negb (is_none value) && negb (is_none lower) && negb (is_none upper))
    (inside <- chained_le lower value upper ;;
     when (negb inside)
       (errors_append "effect_size.value must be between lower_ci and upper_ci"))
    fr =
  (finished (range_check value lower upper),
   mkFrame (data fr) (errors fr ++ or_nil (range_check value lower upper))).
Proof.
  unfold range_check.
  generalize "effect_size.value must be between lower_ci and upper_ci".
  intros msg.
  destruct (is_none value), (is_none lower), (is_none upper);
    cbn [negb andb orb when]; try (cbn; now rewrite frame_eta).
  unfold chained_le, bind, lift, ret.
  destruct (py_compare OpLe lower value) as [[|]|[]]; cbn;
    try now rewrite ?frame_eta.
  destruct (py_compare OpLe value upper) as [[|]|[]]; cbn;
    now rewrite ?frame_eta.
Qed.

Ltac step tac := erewrite bind_run by tac; cbv beta iota; cbn [data errors].

(** The call, statement by statement: it returns what the seven checks
    yield in sequence, and leaves the record as it found it. *)
Lemma call_spec (d : dict) :
  call d = (check_sequence d, mkFrame d (appended d)).
Proof.
  unfold call, validate_extraction.
  step reflexivity.
  step ltac:(apply (for_each_appends
     (fun field d => if dict_contains d field then []
                     else [("Missing field: " ++ field)%string]));
     intros x fr; unfold bind, data_contains;
     destruct (dict_contains (data fr) x); cbn;
     [now rewrite frame_eta | reflexivity]).
  cbn [app].
  step reflexivity.
  step ltac:(apply sample_size_step).
  step reflexivity.
  unfold check_sequence, appended, ci_ordering_violations,
    value_in_range_violations, shape_violations, missing_subfield_violations,
    numeric_type_violations, effect_of.
  fold (missing_field_violations d). fold (sample_size_violations d).
  generalize (missing_field_violations d) (sample_size_violations d).
  intros l1 l2.
  destruct (as_dict (dict_get d "effect_size")) as [e|].
  2:{ step reflexivity. unfold return_errors, or_nil. cbn [errors data app].
      rewrite <- ?app_assoc. reflexivity. }
  unfold bind at 1.
  step ltac:(apply (for_each_appends
     (fun key (_ : dict) =>
        if dict_contains e key then []
        else [("Missing effect_size field: " ++ key)%string]));
     intros x fr; rewrite when_appends; now destruct (dict_contains e x)).
  step ltac:(apply (for_each_appends
     (fun (p : string * value) (_ : dict) =>
        if is_none (snd p) || isinstance_int_float (snd p) then []
        else [("effect_size." ++ fst p ++ " must be numeric or null")%string]));
     intros [name v] fr; rewrite when_appends; cbn [fst snd];
     now destruct (is_none v), (isinstance_int_float v)).
  match goal with
  | |- context [flat_map ?f ["type"; "value"; "lower_ci"; "upper_ci"]] =>
      generalize (flat_map f ["type"; "value"; "lower_ci"; "upper_ci"])
  end.
  intros l4.
  change (flat_map _ [("value", _); ("lower_ci", _); ("upper_ci", _)])
    with (flat_map
            (fun name =>
               if is_none (dict_get e name) ||
                  isinstance_int_float (dict_get e name)
               then []
               else [("effect_size." ++ name ++ " must be numeric or null")%string])
            ["value"; "lower_ci"; "upper_ci"]).
  match goal with
  | |- context [flat_map ?f ["value"; "lower_ci"; "upper_ci"]] =>
      generalize (flat_map f ["value"; "lower_ci"; "upper_ci"])
  end.
  intros l5.
  step ltac:(apply ci_step).
  destruct (ci_check (dict_get e "lower_ci") (dict_get e "upper_ci"))
    as [ci|[]]; cbn [finished or_nil].
  2:{ cbn [app]. rewrite <- ?app_assoc, ?app_nil_r. reflexivity. }
  rewrite range_step.
  destruct (range_check (dict_get e "value") (dict_get e "lower_ci")
                        (dict_get e "upper_ci")) as [vr|[]];
    cbn [finished or_nil return_errors data errors app];
    rewrite <- ?app_assoc, ?app_nil_r; reflexivity.
Qed.

Lemma validate_sequence (d : dict) : validate d = check_sequence d.
Proof. unfold validate. now rewrite call_spec. Qed.

Lemma errors_built_appended (d : dict) : errors_built d = appended d.
Proof. unfold errors_built. now rewrite call_spec. Qed.


(** The list a call returns is the list it built. *)
Lemma returned_is_built (d : dict) (errs : list string) :
  validate d = Ok errs -> errors_built d = errs.
Proof.
  rewrite validate_sequence, errors_built_appended.
  unfold check_sequence, appended.
  destruct (ci_ordering_violations d) as [ci|]; [|discriminate].
  destruct (value_in_range_violations d) as [vr|]; [|discriminate].
  cbn. now intros [= <-].
Qed.

(* ===================================================================== *)
(** ** Dictionaries and comparisons *)
(* ===================================================================== *)

Lemma dict_get_absent (d : dict) (key : string) :
  dict_contains d key = false -> dict_get d key = VNone.
Proof.
  induction d as [|[k v] rest IH]; cbn; [reflexivity|].
  destruct (String.eqb k key); [discriminate | exact IH].
Qed.

Lemma dict_get_set (key : string) (v : value) (d : dict) (key' : string) :
  dict_get (dict_set key v d) key' =
  if String.eqb key key' then v else dict_get d key'.
Proof.
  induction d as [|[k w] rest IH]; cbn.
  - reflexivity.
  - destruct (String.eqb_spec k key) as [->|Hk]; cbn.
    + now destruct (String.eqb key key').
    + destruct (String.eqb_spec k key') as [->|Hk'].
      * destruct (String.eqb_spec key key') as [->|]; [contradiction|reflexivity].
      * exact IH.
Qed.

Lemma dict_contains_set (key : string) (v : value) (d : dict) (key' : string) :
  dict_contains (dict_set key v d) key' =
  (String.eqb key key' || dict_contains d key').
Proof.
  induction d as [|[k w] rest IH]; cbn.
  - now destruct (String.eqb key key').
  - destruct (String.eqb_spec k key) as [->|Hk]; cbn.
    + now destruct (String.eqb key key').
    + destruct (String.eqb_spec k key') as [->|Hk'].
      * now rewrite orb_true_r.
      * exact IH.
Qed.

(** A boolean on either side of a comparison is the integer it stands
    for. *)
Lemma py_compare_bool_l (op : cmpop) (b : bool) (y : value) :
  py_compare op (VBool b) y = py_compare op (VInt (Z.b2z b)) y.
Proof. reflexivity. Qed.

Lemma py_compare_bool_r (op : cmpop) (b : bool) (y : value) :
  py_compare op y (VBool b) = py_compare op y (VInt (Z.b2z b)).
Proof. destruct y; reflexivity. Qed.

(** Two numbers always compare. *)
Lemma py_compare_numbers (op : cmpop) (a b : value) (na nb : number) :
  as_number a = Some na -> as_number b = Some nb ->
  py_compare op a b = Ok (holds op (number_compare na nb)).
Proof.
  destruct a; try discriminate; intros [= <-] Hb; cbn; now rewrite Hb.
Qed.

Lemma number_or_none (v : value) :
  is_none v || isinstance_int_float v = true ->
  is_none v = true \/ exists n, is_none v = false /\ as_number v = Some n.
Proof.
  destruct v; cbn; try discriminate; eauto.
Qed.

Lemma ci_check_returns (lower upper : value) :
  is_none lower || isinstance_int_float lower = true ->
  is_none upper || isinstance_int_float upper = true ->
  exists l, ci_check lower upper = Ok l.
Proof.
  intros Hl Hu. unfold ci_check.
  destruct (number_or_none _ Hl) as [->|[nl [-> El]]]; [cbn; eauto|].
  destruct (number_or_none _ Hu) as [->|[nu [-> Eu]]]; [cbn; eauto|].
  cbn [orb]. rewrite (py_compare_numbers _ _ _ _ _ El Eu). eauto.
Qed.

Lemma range_check_returns (value lower upper : value) :
  is_none value || isinstance_int_float value = true ->
  is_none lower || isinstance_int_float lower = true ->
  is_none upper || isinstance_int_float upper = true ->
  exists l, range_check value lower upper = Ok l.
Proof.
  intros Hv Hl Hu. unfold range_check.
  destruct (number_or_none _ Hv) as [->|[nv [-> Ev]]]; [cbn; eauto|].
  destruct (number_or_none _ Hl) as [->|[nl [-> El]]]; [cbn; eauto|].
  destruct (number_or_none _ Hu) as [->|[nu [-> Eu]]]; [cbn; eauto|].
  cbn [orb].
  rewrite (py_compare_numbers _ _ _ _ _ El Ev).
  rewrite (py_compare_numbers _ _ _ _ _ Ev Eu).
  destruct (holds OpLe (number_compare nl nv)); eauto.
Qed.

(** Membership in a list built by the checks, case by case. *)
Ltac in_cases H :=
  repeat match type of H with
         | In _ (_ ++ _) => apply in_app_or in H; destruct H as [H|H]
         | In _ (if ?c then _ else _) => destruct c
         | In _ (_ :: _) => destruct H as [H|H]
         | In _ [] => destruct H
         end.

(* ===================================================================== *)
(** ** Exceptions *)
(* ===================================================================== *)

(** The call returns whenever [effect_size] is not a dict, and whenever
    each of [value], [lower_ci] and [upper_ci] is [None] or a number. *)
Lemma validate_returns_on_numbers (d : dict) :
  (forall e, effect_of d = Some e ->
     forall name, In name ["value"; "lower_ci"; "upper_ci"] ->
       is_none (dict_get e name) || isinstance_int_float (dict_get e name) = true) ->
  exists errs, validate d = Ok errs.
Proof.
  intros H. rewrite validate_sequence.
  unfold check_sequence, ci_ordering_violations, value_in_range_violations.
  destruct (effect_of d) as [e|]; [|eauto].
  pose proof (H e eq_refl "value" ltac:(cbn; tauto)) as Hv.
  pose proof (H e eq_refl "lower_ci" ltac:(cbn; tauto)) as Hl.
  pose proof (H e eq_refl "upper_ci" ltac:(cbn; tauto)) as Hu.
  destruct (ci_check_returns _ _ Hl Hu) as [ci ->].
  destruct (range_check_returns _ _ _ Hv Hl Hu) as [vr ->].
  eauto.
Qed.

(** C1 (defect in the code): the function does raise.  On the record
    [{title:"T", study_design:"D", population:"P", sample_size:30,
      outcome:"O", effect_size:{type:"OR", value:1.5, lower_ci:"a",
      upper_ci:2.0}}] the type violation of [lower_ci] is appended, then
    [lower > upper] compares a string with a float and the call ends in a
    [TypeError] instead of returning its list. *)
Theorem string_bound_raises :
  validate (study (VInt 30) (VDict effect_string_bound)) = Raise TypeError /\
  errors_built (study (VInt 30) (VDict effect_string_bound)) =
    ["effect_size.lower_ci must be numeric or null"].
Proof. split; reflexivity. Qed.

(* ===================================================================== *)
(** ** The shape of [effect_size] *)
(* ===================================================================== *)

(** C2, as stated, fails: with all six keys present, [sample_size] 30 and
    [effect_size] null, the list is not empty. *)
Lemma null_effect_size_not_accepted :
  ~ (forall d : dict,
       (forall field, In field REQUIRED_FIELDS -> dict_contains d field = true) ->
       dict_get d "effect_size" = VNone ->
       (dict_get d "sample_size" = VNone \/
        exists n, dict_get d "sample_size" = VInt n /\ 0 < n) ->
       validate d = Ok []).
Proof.
  intros H.
  specialize (H (study (VInt 30) VNone)).
  assert (validate (study (VInt 30) VNone) = Ok []) as E.
  { apply H.
    - intros field Hin. cbn in Hin.
      repeat (destruct Hin as [<-|Hin]; [reflexivity|]). destruct Hin.
    - reflexivity.
    - right. exists 30. split; [reflexivity | lia]. }
  discriminate E.
Qed.

(** C2 (amended): a record with all six keys present, [effect_size] null
    and [sample_size] null or a positive integer yields exactly one
    violation, the shape violation of [effect_size]. *)
Theorem null_effect_size_one_violation (d : dict) :
  (forall field, In field REQUIRED_FIELDS -> dict_contains d field = true) ->
  dict_get d "effect_size" = VNone ->
  (dict_get d "sample_size" = VNone \/
   exists n, dict_get d "sample_size" = VInt n /\ 0 < n) ->
  validate d = Ok ["effect_size must be an object"].
Proof.
  intros Hkeys Heff Hsize.
  rewrite validate_sequence.
  unfold check_sequence, ci_ordering_violations, value_in_range_violations,
    shape_violations, missing_subfield_violations, numeric_type_violations,
    effect_of.
  rewrite Heff. cbn [as_dict app].
  assert (missing_field_violations d = []) as ->.
  { unfold missing_field_violations, REQUIRED_FIELDS. cbn [flat_map].
    rewrite !Hkeys by (cbn; tauto). reflexivity. }
  assert (sample_size_violations d = []) as ->.
  { unfold sample_size_violations.
    destruct Hsize as [->|[n [-> Hn]]]; cbn; [reflexivity|].
    destruct (Z.leb_spec n 0); [lia | reflexivity]. }
  reflexivity.
Qed.

Lemma null_effect_size_one_violation_witness :
  validate (study (VInt 30) VNone) = Ok ["effect_size must be an object"].
Proof.
  apply null_effect_size_one_violation.
  - intros field Hin. cbn in Hin.
    repeat (destruct Hin as [<-|Hin]; [reflexivity|]). destruct Hin.
  - reflexivity.
  - right. exists 30. split; [reflexivity | lia].
Defined.

(** C3: when the key [effect_size] is absent, the call returns a list
    that holds both the missing-field violation for [effect_size] and the
    shape violation; after the presence check nothing but the shape
    violation is added for it. *)
Theorem absent_effect_size_shape_violation (d : dict) :
  dict_contains d "effect_size" = false ->
  validate d =
    Ok (missing_field_violations d ++ sample_size_violations d ++
        ["effect_size must be an object"]) /\
  In "Missing field: effect_size" (missing_field_violations d) /\
  exists errs,
    validate d = Ok errs /\
    In "Missing field: effect_size" errs /\
    In "effect_size must be an object" errs.
Proof.
  intros Habsent.
  assert (validate d =
          Ok (missing_field_violations d ++ sample_size_violations d ++
              ["effect_size must be an object"])) as Hv.
  { rewrite validate_sequence.
    unfold check_sequence, ci_ordering_violations, value_in_range_violations,
      shape_violations, missing_subfield_violations, numeric_type_violations,
      effect_of.
    rewrite (dict_get_absent _ _ Habsent). reflexivity. }
  assert (In "Missing field: effect_size" (missing_field_violations d)) as Hm.
  { unfold missing_field_violations, REQUIRED_FIELDS. cbn [flat_map].
    rewrite Habsent. rewrite !in_app_iff. cbn. tauto. }
  repeat split; try assumption.
  eexists. split; [exact Hv|].
  rewrite !in_app_iff. cbn. tauto.
Qed.

Lemma absent_effect_size_shape_violation_witness :
  validate [("title", VStr "T")] =
    Ok (missing_field_violations [("title", VStr "T")] ++
        sample_size_violations [("title", VStr "T")] ++
        ["effect_size must be an object"]) /\
  In "Missing field: effect_size"
     (missing_field_violations [("title", VStr "T")]) /\
  exists errs,
    validate [("title", VStr "T")] = Ok errs /\
    In "Missing field: effect_size" errs /\
    In "effect_size must be an object" errs.
Proof.
  apply absent_effect_size_shape_violation. reflexivity.
Defined.

(** C4: when [effect_size] is not a dict (absent, null, a string, a
    number, ...), the call returns a list that holds the shape violation
    and none of the nested checks' violations. *)
Theorem non_mapping_skips_nested_checks (d : dict) :
  as_dict (dict_get d "effect_size") = None ->
  exists errs,
    validate d = Ok errs /\
    In "effect_size must be an object" errs /\
    (forall key, ~ In ("Missing effect_size field: " ++ key)%string errs) /\
    (forall name,
        ~ In ("effect_size." ++ name ++ " must be numeric or null")%string errs) /\
    ~ In "lower_ci cannot be greater than upper_ci" errs /\
    ~ In "effect_size.value must be between lower_ci and upper_ci" errs.
Proof.
  intros Hshape.
  exists (missing_field_violations d ++ sample_size_violations d ++
          ["effect_size must be an object"]).
  split.
  { rewrite validate_sequence.
    unfold check_sequence, ci_ordering_violations, value_in_range_violations,
      shape_violations, missing_subfield_violations, numeric_type_violations,
      effect_of.
    rewrite Hshape. reflexivity. }
  split.
  { rewrite !in_app_iff. cbn. tauto. }
  unfold missing_field_violations, sample_size_violations, REQUIRED_FIELDS.
  cbn [flat_map].
  split; [intros key|split; [intros name|split]]; intros H;
    destruct (is_none (dict_get d "sample_size"));
    destruct (int_of (dict_get d "sample_size")) as [n|];
    in_cases H; discriminate H.
Qed.

Lemma non_mapping_skips_nested_checks_witness :
  exists errs,
    validate [("title", VStr "T"); ("effect_size", VStr "high")] = Ok errs /\
    In "effect_size must be an object" errs /\
    (forall key, ~ In ("Missing effect_size field: " ++ key)%string errs) /\
    (forall name,
        ~ In ("effect_size." ++ name ++ " must be numeric or null")%string errs) /\
    ~ In "lower_ci cannot be greater than upper_ci" errs /\
    ~ In "effect_size.value must be between lower_ci and upper_ci" errs.
Proof.
  apply non_mapping_skips_nested_checks. reflexivity.
Defined.

(* ===================================================================== *)
(** ** Order of the violations *)
(* ===================================================================== *)

(** A loop that appends at most one message per item lists the messages of
    the failing items, in the order of the items. *)
Lemma flat_map_filter {A B} (p : A -> bool) (g : A -> B) (l : list A) :
  flat_map (fun x => if p x then [] else [g x]) l =
  map g (filter (fun x => negb (p x)) l).
Proof.
  induction l as [|x l IH]; cbn; [reflexivity|].
  destruct (p x); cbn; now rewrite IH.
Qed.

(** The call's outcome is that of the seven checks taken in their fixed
    order, each computed from the record alone: a violation found by one
    check never suppresses a later check, the only skip being that checks
    4-7 list nothing when [effect_size] is not a dict.  Within a check the
    messages follow the order of the field names.  The list is returned
    unless one of the comparisons of checks 6 and 7 raises. *)
Theorem fixed_check_order (d : dict) :
  validate d =
    match ci_ordering_violations d with
    | Raise x => Raise x
    | Ok ci =>
        match value_in_range_violations d with
        | Raise x => Raise x
        | Ok vr =>
            Ok (missing_field_violations d ++ sample_size_violations d ++
                shape_violations d ++ missing_subfield_violations d ++
                numeric_type_violations d ++ ci ++ vr)
        end
    end /\
  missing_field_violations d =
    map (fun field => ("Missing field: " ++ field)%string)
      (filter (fun field => negb (dict_contains d field))
         ["title"; "study_design"; "population"; "sample_size"; "outcome";
          "effect_size"]) /\
  (forall e, effect_of d = Some e ->
     missing_subfield_violations d =
       map (fun key => ("Missing effect_size field: " ++ key)%string)
         (filter (fun key => negb (dict_contains e key))
            ["type"; "value"; "lower_ci"; "upper_ci"]) /\
     numeric_type_violations d =
       map (fun name =>
              ("effect_size." ++ name ++ " must be numeric or null")%string)
         (filter (fun name =>
                    negb (is_none (dict_get e name) ||
                          isinstance_int_float (dict_get e name)))
            ["value"; "lower_ci"; "upper_ci"])) /\
  (effect_of d = None ->
     missing_subfield_violations d = [] /\ numeric_type_violations d = [] /\
     ci_ordering_violations d = Ok [] /\ value_in_range_violations d = Ok []).
Proof.
  split; [|split; [|split]].
  - rewrite validate_sequence. reflexivity.
  - apply flat_map_filter.
  - unfold missing_subfield_violations, numeric_type_violations.
    intros e ->. split.
    + apply flat_map_filter.
    + apply (flat_map_filter
               (fun name => is_none (dict_get e name) ||
                            isinstance_int_float (dict_get e name))).
  - unfold missing_subfield_violations, numeric_type_violations,
      ci_ordering_violations, value_in_range_violations.
    intros ->. repeat split.
Qed.

Lemma fixed_check_order_witness :
  validate (study (VInt 0) (VStr "high")) =
    Ok ["sample_size must be > 0"; "effect_size must be an object"] /\
  validate [("sample_size", VStr "many"); ("effect_size", VDict effect_many)] =
    Ok ["Missing field: title"; "Missing field: study_design";
        "Missing field: population"; "Missing field: outcome";
        "sample_size must be an integer or null";
        "Missing effect_size field: type";
        "Missing effect_size field: value";
        "effect_size.lower_ci must be numeric or null";
        "effect_size.upper_ci must be numeric or null";
        "lower_ci cannot be greater than upper_ci"].
Proof.
  split.
  - destruct (fixed_check_order (study (VInt 0) (VStr "high")))
      as (Hv & _ & _ & Hskip).
    destruct (Hskip eq_refl) as (_ & _ & _ & _).
    rewrite Hv. reflexivity.
  - destruct (fixed_check_order
                [("sample_size", VStr "many"); ("effect_size", VDict effect_many)])
      as (Hv & Hm & Hnested & _).
    destruct (Hnested effect_many eq_refl) as [Hs Hn].
    rewrite Hv, Hm, Hs, Hn. reflexivity.
Defined.

(** C5 (defect in the code): not all checks always run.  On the record
    [{title:"T", study_design:"D", population:"P", sample_size:30,
      outcome:"O", effect_size:{type:"OR", value:"a", lower_ci:"b",
      upper_ci:2}}] checks 1-5 run and append the type violations of
    [value] and [lower_ci]; then check 6 compares ["b" > 2] and raises.
    Check 7, which on its own finds the value outside the interval, never
    runs, and no list is returned. *)
Theorem check_sequence_cut_short :
  validate (study (VInt 30) (VDict effect_two_strings)) = Raise TypeError /\
  value_in_range_violations (study (VInt 30) (VDict effect_two_strings)) =
    Ok ["effect_size.value must be between lower_ci and upper_ci"] /\
  errors_built (study (VInt 30) (VDict effect_two_strings)) =
    ["effect_size.value must be numeric or null";
     "effect_size.lower_ci must be numeric or null"].
Proof. repeat split. Qed.

(* ===================================================================== *)
(** ** Purity *)
(* ===================================================================== *)



(* ===================================================================== *)
(** ** Where a message can come from *)
(* ===================================================================== *)

Lemma in_missing_field (d : dict) (x : string) :
  In x (missing_field_violations d) ->
  exists field, x = ("Missing field: " ++ field)%string.
Proof.
  unfold missing_field_violations. rewrite in_flat_map.
  intros (field & _ & H). destruct (dict_contains d field); [destruct H|].
  destruct H as [<-|[]]. eauto.
Qed.

Lemma in_sample_size (d : dict) (x : string) :
  In x (sample_size_violations d) ->
  x = "sample_size must be an integer or null" \/ x = "sample_size must be > 0".
Proof.
  unfold sample_size_violations.
  destruct (is_none _); [intros []|].
  destruct (int_of _) as [n|].
  - destruct (n <=? 0); [|intros []]. intros [<-|[]]. now right.
  - intros [<-|[]]. now left.
Qed.

Lemma in_shape (d : dict) (x : string) :
  In x (shape_violations d) -> x = "effect_size must be an object".
Proof.
  unfold shape_violations. destruct (effect_of d); [intros []|].
  now intros [<-|[]].
Qed.

Lemma in_missing_subfield (d : dict) (x : string) :
  In x (missing_subfield_violations d) ->
  exists key, x = ("Missing effect_size field: " ++ key)%string.
Proof.
  unfold missing_subfield_violations. destruct (effect_of d) as [e|]; [|intros []].
  rewrite in_flat_map.
  intros (key & _ & H). destruct (dict_contains e key); [destruct H|].
  destruct H as [<-|[]]. eauto.
Qed.

Lemma in_numeric_type (d : dict) (x : string) :
  In x (numeric_type_violations d) ->
  exists e name,
    effect_of d = Some e /\
    is_none (dict_get e name) || isinstance_int_float (dict_get e name) = false /\
    x = ("effect_size." ++ name ++ " must be numeric or null")%string.
Proof.
  unfold numeric_type_violations. destruct (effect_of d) as [e|]; [|intros []].
  rewrite in_flat_map.
  intros (name & _ & H). cbv zeta in H.
  destruct (is_none (dict_get e name) || isinstance_int_float (dict_get e name))
    eqn:E; [destruct H|].
  destruct H as [<-|[]]. eauto.
Qed.

Lemma in_ci_ordering (d : dict) (x : string) :
  In x (or_nil (ci_ordering_violations d)) ->
  x = "lower_ci cannot be greater than upper_ci".
Proof.
  unfold ci_ordering_violations, ci_check.
  destruct (effect_of d) as [e|]; [|intros []].
  destruct (_ || _); [intros []|].
  destruct (py_compare _ _ _) as [[|]|]; cbn; try tauto.
  now intros [<-|[]].
Qed.

Lemma in_value_in_range (d : dict) (x : string) :
  In x (or_nil (value_in_range_violations d)) ->
  x = "effect_size.value must be between lower_ci and upper_ci".
Proof.
  unfold value_in_range_violations, range_check.
  destruct (effect_of d) as [e|]; [|intros []].
  destruct (_ || _); [intros []|].
  destruct (py_compare OpLe (dict_get e "lower_ci") _) as [[|]|]; cbn;
    try tauto; [|now intros [<-|[]]].
  destruct (py_compare _ _ _) as [[|]|]; cbn; try tauto.
  now intros [<-|[]].
Qed.

(** Every message the call appends comes from one of the seven checks. *)
Lemma in_appended (d : dict) (x : string) :
  In x (appended d) ->
  In x (missing_field_violations d) \/ In x (sample_size_violations d) \/
  In x (shape_violations d) \/ In x (missing_subfield_violations d) \/
  In x (numeric_type_violations d) \/
  In x (or_nil (ci_ordering_violations d)) \/
  In x (or_nil (value_in_range_violations d)).
Proof.
  unfold appended. rewrite !in_app_iff.
  destruct (ci_ordering_violations d); cbn; tauto.
Qed.

Lemma sample_size_appended (d : dict) (x : string) :
  In x (sample_size_violations d) -> In x (appended d).
Proof. unfold appended. rewrite !in_app_iff. tauto. Qed.

(** The two sample-size messages come from check 2 only. *)
Lemma sample_size_message_origin (d : dict) (x : string) :
  x = "sample_size must be an integer or null" \/ x = "sample_size must be > 0" ->
  In x (appended d) -> In x (sample_size_violations d).
Proof.
  intros Hx H. apply in_appended in H.
  destruct H as [H|[H|[H|[H|[H|[H|H]]]]]].
  - apply in_missing_field in H. destruct H as [f H].
    destruct Hx as [->| ->]; discriminate H.
  - exact H.
  - apply in_shape in H. destruct Hx as [->| ->]; discriminate H.
  - apply in_missing_subfield in H. destruct H as [k H].
    destruct Hx as [->| ->]; discriminate H.
  - apply in_numeric_type in H. destruct H as (e & k & _ & _ & H).
    destruct Hx as [->| ->]; discriminate H.
  - apply in_ci_ordering in H. destruct Hx as [->| ->]; discriminate H.
  - apply in_value_in_range in H. destruct Hx as [->| ->]; discriminate H.
Qed.

(* ===================================================================== *)
(** ** Sample size *)
(* ===================================================================== *)

(** For every record whose [sample_size] is an integer [n <= 0], the
    range violation is in the list the call builds, hence in the list it
    returns when it returns; on the reference record with [sample_size] -5
    the call returns exactly that violation, and with 30 it returns the
    empty list. *)
Theorem nonpositive_sample_size (d : dict) (n : Z) :
  dict_get d "sample_size" = VInt n ->
  n <= 0 ->
  In "sample_size must be > 0" (errors_built d) /\
  (forall errs, validate d = Ok errs -> In "sample_size must be > 0" errs) /\
  validate (study (VInt (-5)) (VDict effect_ok)) = Ok ["sample_size must be > 0"] /\
  validate (study (VInt 30) (VDict effect_ok)) = Ok [].
Proof.
  intros Hsize Hn.
  assert (In "sample_size must be > 0" (errors_built d)) as Hin.
  { rewrite errors_built_appended. apply sample_size_appended.
    unfold sample_size_violations. rewrite Hsize. cbn.
    destruct (Z.leb_spec n 0); [now left | lia]. }
  split; [exact Hin|]. split; [|split; reflexivity].
  intros errs Hret. now rewrite <- (returned_is_built _ _ Hret).
Qed.

Lemma nonpositive_sample_size_witness :
  In "sample_size must be > 0"
     (errors_built (study (VInt (-5)) (VDict effect_ok))) /\
  In "sample_size must be > 0" ["sample_size must be > 0"].
Proof.
  destruct (nonpositive_sample_size (study (VInt (-5)) (VDict effect_ok)) (-5))
    as (Hbuilt & Hret & _ & _).
  - reflexivity.
  - lia.
  - split; [exact Hbuilt|]. apply Hret. reflexivity.
Defined.

(** C8 (defect in the code): a non-positive [sample_size] does not always
    reach the caller.  On the record
    [{title:"T", study_design:"D", population:"P", sample_size:-5,
      outcome:"O", effect_size:{type:"OR", value:1.5, lower_ci:"a",
      upper_ci:2.0}}] the range violation is appended, then
    ["a" > 2.0] raises and there is no output.  On the two reference
    records the output is the single range violation, and the empty
    list. *)
Theorem nonpositive_sample_size_lost :
  validate (study (VInt (-5)) (VDict effect_string_bound)) = Raise TypeError /\
  errors_built (study (VInt (-5)) (VDict effect_string_bound)) =
    ["sample_size must be > 0";
     "effect_size.lower_ci must be numeric or null"] /\
  validate (study (VInt (-5)) (VDict effect_ok)) =
    Ok ["sample_size must be > 0"] /\
  validate (study (VInt 30) (VDict effect_ok)) = Ok [].
Proof. repeat split. Qed.

(** For every record whose [sample_size] is a float, whatever its value,
    the type violation is in the list the call builds and the range
    violation is not; the same holds of the list the call returns, when it
    returns. *)
Theorem float_sample_size (d : dict) (x : pyfloat) :
  dict_get d "sample_size" = VFloat x ->
  (In "sample_size must be an integer or null" (errors_built d) /\
   ~ In "sample_size must be > 0" (errors_built d)) /\
  (forall errs, validate d = Ok errs ->
     In "sample_size must be an integer or null" errs /\
     ~ In "sample_size must be > 0" errs).
Proof.
  intros Hsize.
  assert (sample_size_violations d = ["sample_size must be an integer or null"])
    as Hs by (unfold sample_size_violations; now rewrite Hsize).
  assert (In "sample_size must be an integer or null" (errors_built d) /\
          ~ In "sample_size must be > 0" (errors_built d)) as Hbuilt.
  { rewrite errors_built_appended. split.
    - apply sample_size_appended. rewrite Hs. now left.
    - intros H. apply sample_size_message_origin in H; [|now right].
      rewrite Hs in H. destruct H as [H|[]]. discriminate H. }
  split; [exact Hbuilt|].
  intros errs Hret. now rewrite <- (returned_is_built _ _ Hret).
Qed.

Lemma float_sample_size_witness :
  In "sample_size must be an integer or null"
     ["sample_size must be an integer or null"] /\
  ~ In "sample_size must be > 0" ["sample_size must be an integer or null"].
Proof.
  apply (float_sample_size (study (VFloat (Ffin 30 0)) (VDict effect_ok))
           (Ffin 30 0)).
  - reflexivity.
  - reflexivity.
Defined.

(** C10 (defect in the code): the type violation of a float [sample_size]
    does not always reach the caller.  On the record
    [{title:"T", study_design:"D", population:"P", sample_size:30.0,
      outcome:"O", effect_size:{type:"OR", value:1.5, lower_ci:"a",
      upper_ci:2.0}}] the type violation is appended (and not the range
    violation), then ["a" > 2.0] raises and nothing is returned.  With
    the well-formed [effect_size] the output is the single type
    violation. *)
Theorem float_sample_size_lost :
  validate (study (VFloat (Ffin 30 0)) (VDict effect_string_bound)) =
    Raise TypeError /\
  errors_built (study (VFloat (Ffin 30 0)) (VDict effect_string_bound)) =
    ["sample_size must be an integer or null";
     "effect_size.lower_ci must be numeric or null"] /\
  validate (study (VFloat (Ffin 30 0)) (VDict effect_ok)) =
    Ok ["sample_size must be an integer or null"].
Proof. repeat split. Qed.

(* ===================================================================== *)
(** ** A reversed interval *)
(* ===================================================================== *)

(** With [lower_ci = 5] and [upper_ci = 2] the ordering violation is
    appended whatever [value] is. *)
Lemma reversed_interval_appended (d e : dict) :
  effect_of d = Some e ->
  dict_get e "lower_ci" = VInt 5 ->
  dict_get e "upper_ci" = VInt 2 ->
  In "lower_ci cannot be greater than upper_ci" (errors_built d).
Proof.
  intros He Hl Hu. rewrite errors_built_appended.
  unfold appended, ci_ordering_violations. rewrite He, Hl, Hu.
  rewrite !in_app_iff. cbn. tauto.
Qed.

(** It reaches the caller when [value] is [None] or a number. *)
Lemma reversed_interval_returned (d e : dict) :
  effect_of d = Some e ->
  dict_get e "lower_ci" = VInt 5 ->
  dict_get e "upper_ci" = VInt 2 ->
  is_none (dict_get e "value") || isinstance_int_float (dict_get e "value") = true ->
  exists errs,
    validate d = Ok errs /\ In "lower_ci cannot be greater than upper_ci" errs.
Proof.
  intros He Hl Hu Hv.
  destruct (validate_returns_on_numbers d) as [errs Hret].
  { intros e' He' name Hin. rewrite He in He'. injection He' as <-.
    cbn in Hin. destruct Hin as [<-|[<-|[<-|[]]]].
    - exact Hv.
    - now rewrite Hl.
    - now rewrite Hu. }
  exists errs. split; [exact Hret|].
  rewrite <- (returned_is_built _ _ Hret).
  now apply (reversed_interval_appended d e).
Qed.

(** C7 (defect in the code): on the record
    [{title:"T", study_design:"D", population:"P", sample_size:30,
      outcome:"O", effect_size:{type:"OR", value:"x", lower_ci:5,
      upper_ci:2}}] the ordering violation is appended, but then
    [lower <= value] compares 5 with a string and the call ends in a
    [TypeError]: the caller gets no violation list. *)
Theorem reversed_interval_string_value_raises :
  validate (study (VInt 30) (VDict (effect_reversed (VStr "x")))) =
    Raise TypeError /\
  errors_built (study (VInt 30) (VDict (effect_reversed (VStr "x")))) =
    ["effect_size.value must be numeric or null";
     "lower_ci cannot be greater than upper_ci"].
Proof. split; reflexivity. Qed.

(* ===================================================================== *)
(** ** Booleans *)
(* ===================================================================== *)

Lemma ci_check_bool_l (b : bool) (upper : value) :
  ci_check (VBool b) upper = ci_check (VInt (Z.b2z b)) upper.
Proof. reflexivity. Qed.

Lemma ci_check_bool_r (b : bool) (lower : value) :
  ci_check lower (VBool b) = ci_check lower (VInt (Z.b2z b)).
Proof. unfold ci_check. now rewrite py_compare_bool_r. Qed.

Lemma range_check_bool_value (b : bool) (lower upper : value) :
  range_check (VBool b) lower upper = range_check (VInt (Z.b2z b)) lower upper.
Proof. unfold range_check. now rewrite py_compare_bool_r. Qed.

Lemma range_check_bool_lower (b : bool) (value upper : value) :
  range_check value (VBool b) upper = range_check value (VInt (Z.b2z b)) upper.
Proof. reflexivity. Qed.

Lemma range_check_bool_upper (b : bool) (value lower : value) :
  range_check value lower (VBool b) = range_check value lower (VInt (Z.b2z b)).
Proof.
  unfold range_check. rewrite py_compare_bool_r.
  now destruct (is_none value), (is_none lower).
Qed.

(** The checks look at a record only through [in] and [get]. *)
Lemma check_sequence_ext (d d' : dict) :
  (forall key, dict_contains d key = dict_contains d' key) ->
  (forall key, dict_get d key = dict_get d' key) ->
  check_sequence d = check_sequence d'.
Proof.
  intros Hc Hg.
  unfold check_sequence, ci_ordering_violations, value_in_range_violations,
    missing_field_violations, sample_size_violations, shape_violations,
    missing_subfield_violations, numeric_type_violations, effect_of.
  rewrite !Hg. cbn [flat_map REQUIRED_FIELDS]. unfold REQUIRED_FIELDS.
  cbn [flat_map]. now rewrite !Hc.
Qed.

(** C9: booleans pass every type check as the integers 1 and 0.  With
    [sample_size = True] no sample-size violation is appended, and the
    call behaves as with [sample_size = 1]; a boolean in [value],
    [lower_ci] or [upper_ci] draws no numeric-type violation, and the call
    behaves as with the integer 1 or 0 in its place, comparisons
    included.  On the reference record, [True] as [sample_size] is
    accepted and [False] draws the range violation; with booleans for
    [value] and both bounds the call returns exactly the CI-ordering
    violation when [lower_ci > upper_ci] as integers, and the
    value-in-range violation unless [lower_ci <= value <= upper_ci] as
    integers; and [True] as a bound compares with a float as 1 does. *)
Theorem booleans_are_integers (d e : dict) (b : bool) (name : string) :
  In name ["value"; "lower_ci"; "upper_ci"] ->
  (validate (dict_set "sample_size" (VBool b) d) =
   validate (dict_set "sample_size" (VInt (Z.b2z b)) d)) /\
  (~ In "sample_size must be an integer or null"
        (errors_built (dict_set "sample_size" (VBool true) d)) /\
   ~ In "sample_size must be > 0"
        (errors_built (dict_set "sample_size" (VBool true) d))) /\
  (validate (dict_set "effect_size" (VDict (dict_set name (VBool b) e)) d) =
   validate (dict_set "effect_size" (VDict (dict_set name (VInt (Z.b2z b)) e)) d)) /\
  ~ In ("effect_size." ++ name ++ " must be numeric or null")%string
       (errors_built
          (dict_set "effect_size" (VDict (dict_set name (VBool b) e)) d)) /\
  (forall size : bool,
     validate (study (VBool size) (VDict effect_ok)) =
     Ok (if Z.b2z size <=? 0 then ["sample_size must be > 0"] else [])) /\
  (forall value lower upper : bool,
     validate (study (VInt 30) (VDict (effect_bools value lower upper))) =
     Ok ((if Z.b2z lower >? Z.b2z upper
          then ["lower_ci cannot be greater than upper_ci"] else []) ++
         (if (Z.b2z lower <=? Z.b2z value) && (Z.b2z value <=? Z.b2z upper)
          then []
          else ["effect_size.value must be between lower_ci and upper_ci"]))) /\
  validate (study (VInt 30) (VDict effect_bool_float)) =
    Ok ["lower_ci cannot be greater than upper_ci";
        "effect_size.value must be between lower_ci and upper_ci"].
Proof.
  intros Hname.
  split; [|split; [|split; [|split; [|split; [|split]]]]].
  - rewrite !validate_sequence.
    unfold check_sequence, ci_ordering_violations, value_in_range_violations,
      missing_field_violations, sample_size_violations, shape_violations,
      missing_subfield_violations, numeric_type_violations, effect_of.
    unfold REQUIRED_FIELDS. cbn [flat_map].
    rewrite !dict_get_set, !dict_contains_set. reflexivity.
  - rewrite errors_built_appended.
    split; intros H; apply sample_size_message_origin in H; try tauto;
      unfold sample_size_violations in H; rewrite dict_get_set in H;
      destruct H.
  - rewrite !validate_sequence.
    unfold check_sequence, ci_ordering_violations, value_in_range_violations,
      missing_field_violations, sample_size_violations, shape_violations,
      missing_subfield_violations, numeric_type_violations, effect_of.
    unfold REQUIRED_FIELDS. cbn [flat_map].
    rewrite !dict_get_set, !dict_contains_set.
    cbn [String.eqb Ascii.eqb Bool.eqb as_dict].
    rewrite !dict_get_set, !dict_contains_set.
    cbn in Hname. destruct Hname as [<-|[<-|[<-|[]]]];
      cbn [String.eqb Ascii.eqb Bool.eqb is_none isinstance_int_float orb];
      rewrite ?ci_check_bool_r, ?range_check_bool_value, ?range_check_bool_upper;
      reflexivity.
  - rewrite errors_built_appended. intros H. apply in_appended in H.
    cbn in Hname.
    destruct Hname as [<-|[<-|[<-|[]]]];
      (destruct H as [H|[H|[H|[H|[H|[H|H]]]]]];
       [ apply in_missing_field in H; destruct H as [f H]; discriminate H
       | apply in_sample_size in H; destruct H as [H|H]; discriminate H
       | apply in_shape in H; discriminate H
       | apply in_missing_subfield in H; destruct H as [k H]; discriminate H
       | unfold numeric_type_violations, effect_of in H;
         rewrite dict_get_set in H;
         cbn [String.eqb Ascii.eqb Bool.eqb as_dict flat_map] in H;
         rewrite !dict_get_set in H;
         cbn [String.eqb Ascii.eqb Bool.eqb is_none isinstance_int_float orb app]
           in H;
         in_cases H; discriminate H
       | apply in_ci_ordering in H; discriminate H
       | apply in_value_in_range in H; discriminate H ]).
  - intros [|]; reflexivity.
  - intros [|] [|] [|]; reflexivity.
  - reflexivity.
Qed.

Lemma booleans_are_integers_witness :
  validate (dict_set "sample_size" (VBool true) (study VNone (VDict effect_ok))) =
    Ok [] /\
  validate (study (VBool false) (VDict effect_ok)) =
    Ok ["sample_size must be > 0"] /\
  validate (study (VInt 30) (VDict (effect_bools true true false))) =
    Ok ["lower_ci cannot be greater than upper_ci";
        "effect_size.value must be between lower_ci and upper_ci"] /\
  validate (study (VInt 30) (VDict (effect_bools false false true))) = Ok [] /\
  validate (study (VInt 30) (VDict effect_bool_float)) =
    Ok ["lower_ci cannot be greater than upper_ci";
        "effect_size.value must be between lower_ci and upper_ci"].
Proof.
  destruct (booleans_are_integers (study VNone (VDict effect_ok)) effect_ok
              true "lower_ci") as (Hsize & _ & _ & _ & Hbool & Hbools & Hmixed).
  { cbn. tauto. }
  split; [|split; [|split; [|split]]].
  - rewrite Hsize. reflexivity.
  - rewrite (Hbool false). reflexivity.
  - rewrite (Hbools true true false). reflexivity.
  - rewrite (Hbools false false true). reflexivity.
  - exact Hmixed.
Defined.

(* ===================================================================== *)
(** ** Acceptance *)
(* ===================================================================== *)

Lemma flat_map_if_nil {A B} (p : A -> bool) (g : A -> B) (l : list A) :
  flat_map (fun x => if p x then [] else [g x]) l = [] <->
  forall x, In x l -> p x = true.
Proof.
  induction l as [|a l IH]; cbn.
  - tauto.
  - destruct (p a) eqn:E; cbn.
    + rewrite IH. split.
      * intros H x [<-|Hx]; auto.
      * intros H x Hx. apply H. now right.
    + split; [discriminate|]. intros H.
      specialize (H a (or_introl eq_refl)). congruence.
Qed.

Lemma sample_size_violations_nil (d : dict) :
  sample_size_violations d = [] <->
  (dict_get d "sample_size" = VNone \/
   exists n, int_of (dict_get d "sample_size") = Some n /\ 0 < n).
Proof.
  unfold sample_size_violations.
  destruct (dict_get d "sample_size") as [|b|n|x|s|l|e]; cbn.
  - tauto.
  - destruct b; cbn; (split; [try discriminate|]).
    + intros _. right. exists 1. split; [reflexivity|lia].
    + reflexivity.
    + intros [E|[n [[= <-] Hn]]]; [discriminate|lia].
  - destruct (Z.leb_spec n 0) as [Hle|Hlt]; (split; [try discriminate|]).
    + intros [E|[m [[= <-] Hm]]]; [discriminate|lia].
    + intros _. right. exists n. split; [reflexivity|lia].
    + reflexivity.
  - split; [discriminate|]. intros [E|[n [E _]]]; discriminate.
  - split; [discriminate|]. intros [E|[n [E _]]]; discriminate.
  - split; [discriminate|]. intros [E|[n [E _]]]; discriminate.
  - split; [discriminate|]. intros [E|[n [E _]]]; discriminate.
Qed.

Lemma ci_check_nil (lower upper : value) :
  ci_check lower upper = Ok [] <->
  (is_none lower = false -> is_none upper = false ->
   py_compare OpGt lower upper = Ok false).
Proof.
  unfold ci_check.
  destruct (is_none lower), (is_none upper); cbn;
    try (split; [discriminate || reflexivity || (intros; discriminate) | reflexivity]).
  destruct (py_compare OpGt lower upper) as [[|]|[]]; split;
    try discriminate; try reflexivity; auto.
  - intros H. specialize (H eq_refl eq_refl). discriminate.
  - intros H. specialize (H eq_refl eq_refl). discriminate.
Qed.

Lemma range_check_nil (value lower upper : value) :
  range_check value lower upper = Ok [] <->
  (is_none value = false -> is_none lower = false -> is_none upper = false ->
   py_compare OpLe lower value = Ok true /\
   py_compare OpLe value upper = Ok true).
Proof.
  unfold range_check.
  destruct (is_none value), (is_none lower), (is_none upper); cbn;
    try (split; [intros; discriminate | reflexivity]).
  destruct (py_compare OpLe lower value) as [[|]|[]].
  - destruct (py_compare OpLe value upper) as [[|]|[]]; split;
      try discriminate; auto;
      intros H; destruct (H eq_refl eq_refl eq_refl) as [_ H']; discriminate.
  - split; [discriminate|].
    intros H; destruct (H eq_refl eq_refl eq_refl) as [H' _]; discriminate.
  - split; [discriminate|].
    intros H; destruct (H eq_refl eq_refl eq_refl) as [H' _]; discriminate.
Qed.

Lemma as_dict_some (v : value) (e : dict) :
  as_dict v = Some e <-> v = VDict e.
Proof.
  destruct v; cbn; split; intros H; try discriminate H;
    injection H as ->; reflexivity.
Qed.

Lemma missing_field_violations_nil (d : dict) :
  missing_field_violations d = [] <->
  forall field, In field REQUIRED_FIELDS -> dict_contains d field = true.
Proof. apply flat_map_if_nil. Qed.

Lemma nested_violations_nil (d e : dict) :
  dict_get d "effect_size" = VDict e ->
  (shape_violations d = [] /\
   (missing_subfield_violations d = [] <->
    forall key, In key ["type"; "value"; "lower_ci"; "upper_ci"] ->
      dict_contains e key = true) /\
   (numeric_type_violations d = [] <->
    forall name, In name ["value"; "lower_ci"; "upper_ci"] ->
      is_none (dict_get e name) || isinstance_int_float (dict_get e name) = true)) /\
  ci_ordering_violations d =
    ci_check (dict_get e "lower_ci") (dict_get e "upper_ci") /\
  value_in_range_violations d =
    range_check (dict_get e "value") (dict_get e "lower_ci")
                (dict_get e "upper_ci").
Proof.
  intros He.
  unfold shape_violations, missing_subfield_violations,
    numeric_type_violations, ci_ordering_violations,
    value_in_range_violations, effect_of.
  rewrite He. cbn [as_dict].
  repeat split; apply flat_map_if_nil.
Qed.

(** X1: the violation list is empty exactly for the acceptable records:
    all six keys present, [sample_size] null or a positive integer, and
    [effect_size] a dict with its four keys, whose [value], [lower_ci] and
    [upper_ci] are null or numbers, with [lower_ci <= upper_ci] when both
    are given and [lower_ci <= value <= upper_ci] when all three are. *)
Theorem empty_list_iff_acceptable (d : dict) :
  validate d = Ok [] <-> acceptable d.
Proof.
  rewrite validate_sequence. unfold check_sequence, acceptable.
  rewrite <- sample_size_violations_nil, <- missing_field_violations_nil.
  split.
  - intros H.
    destruct (ci_ordering_violations d) as [ci|] eqn:Hci; [|discriminate].
    destruct (value_in_range_violations d) as [vr|] eqn:Hvr; [|discriminate].
    injection H as E.
    apply app_eq_nil in E. destruct E as [H1 E].
    apply app_eq_nil in E. destruct E as [H2 E].
    apply app_eq_nil in E. destruct E as [H3 E].
    apply app_eq_nil in E. destruct E as [H4 E].
    apply app_eq_nil in E. destruct E as [H5 E].
    apply app_eq_nil in E. destruct E as [-> ->].
    split; [exact H1|]. split; [exact H2|].
    unfold shape_violations, effect_of in H3.
    destruct (dict_get d "effect_size") as [| | | | | |e] eqn:He;
      try discriminate H3.
    exists e. split; [reflexivity|].
    destruct (nested_violations_nil d e He) as ((_ & N4 & N5) & N6 & N7).
    split; [now apply N4|]. split; [now apply N5|].
    rewrite N6 in Hci. rewrite N7 in Hvr.
    split; [now apply ci_check_nil | now apply range_check_nil].
  - intros (H1 & H2 & e & He & H4 & H5 & H6 & H7).
    destruct (nested_violations_nil d e He) as ((N3 & N4 & N5) & N6 & N7).
    apply ci_check_nil in H6. apply range_check_nil in H7.
    apply N4 in H4. apply N5 in H5.
    rewrite N6, N7, H6, H7, H1, H2, N3, H4, H5. reflexivity.
Qed.

Lemma empty_list_iff_acceptable_witness :
  acceptable (study (VInt 30) (VDict effect_ok)).
Proof.
  apply (proj1 (empty_list_iff_acceptable (study (VInt 30) (VDict effect_ok)))).
  reflexivity.
Defined.

(* ===================================================================== *)
(** ** What the function looks at *)
(* ===================================================================== *)

Lemma flat_map_agree {A B} (f g : A -> list B) (l : list A) :
  (forall x, In x l -> f x = g x) -> flat_map f l = flat_map g l.
Proof.
  induction l as [|a l IH]; cbn; [reflexivity|].
  intros H. rewrite (H a) by now left.
  rewrite IH; [reflexivity|]. intros x Hx. apply H. now right.
Qed.

(** The checks read the record through the six membership tests and the
    two lookups only. *)
Lemma check_sequence_agree (d d' : dict) :
  (forall field, In field REQUIRED_FIELDS ->
     dict_contains d field = dict_contains d' field) ->
  dict_get d "sample_size" = dict_get d' "sample_size" ->
  dict_get d "effect_size" = dict_get d' "effect_size" ->
  check_sequence d = check_sequence d'.
Proof.
  intros Hc Hs He.
  assert (missing_field_violations d = missing_field_violations d') as Hm.
  { apply flat_map_agree. intros field Hin. now rewrite (Hc field Hin). }
  unfold check_sequence, ci_ordering_violations, value_in_range_violations,
    sample_size_violations, shape_violations,
    missing_subfield_violations, numeric_type_violations, effect_of.
  now rewrite Hm, Hs, He.
Qed.

(** X2: the values stored under [title], [study_design], [population] and
    [outcome] are never inspected, and keys outside the six required ones
    are ignored: storing any value under such a key leaves the outcome of
    the call unchanged. *)
Theorem top_level_values_ignored (d : dict) (key : string) (v : value) :
  key <> "sample_size" -> key <> "effect_size" ->
  dict_contains d key = true \/ ~ In key REQUIRED_FIELDS ->
  validate (dict_set key v d) = validate d.
Proof.
  intros Hs He Hkey. rewrite !validate_sequence.
  apply check_sequence_agree.
  - intros field Hin. rewrite dict_contains_set.
    destruct (String.eqb_spec key field) as [->|Hne]; [|reflexivity].
    destruct Hkey as [Hc|Hn]; [now rewrite Hc | contradiction].
  - rewrite dict_get_set.
    destruct (String.eqb_spec key "sample_size"); [contradiction|reflexivity].
  - rewrite dict_get_set.
    destruct (String.eqb_spec key "effect_size"); [contradiction|reflexivity].
Qed.

Lemma top_level_values_ignored_witness :
  validate (dict_set "title" (VList [VInt 1]) (study (VInt 30) (VDict effect_ok)))
  = validate (study (VInt 30) (VDict effect_ok)).
Proof.
  apply top_level_values_ignored.
  - discriminate.
  - discriminate.
  - left. reflexivity.
Defined.

(** X3: inside [effect_size] the value of [type] is never inspected and
    unknown keys are ignored: storing any value under a key other than
    [value], [lower_ci] and [upper_ci] that is present or is not [type]
    leaves the outcome unchanged. *)
Theorem effect_type_value_ignored (d e : dict) (key : string) (v : value) :
  ~ In key ["value"; "lower_ci"; "upper_ci"] ->
  dict_contains e key = true \/ key <> "type" ->
  validate (dict_set "effect_size" (VDict (dict_set key v e)) d) =
  validate (dict_set "effect_size" (VDict e) d).
Proof.
  intros Hnum Hkey. rewrite !validate_sequence.
  unfold check_sequence, ci_ordering_violations, value_in_range_violations,
    missing_field_violations, sample_size_violations, shape_violations,
    missing_subfield_violations, numeric_type_violations, effect_of.
  rewrite !dict_get_set.
  cbn [String.eqb Ascii.eqb Bool.eqb as_dict flat_map].
  unfold REQUIRED_FIELDS. cbn [flat_map].
  rewrite !dict_contains_set, !dict_get_set.
  cbn in Hnum.
  destruct (String.eqb_spec key "value") as [->|_]; [tauto|].
  destruct (String.eqb_spec key "lower_ci") as [->|_]; [tauto|].
  destruct (String.eqb_spec key "upper_ci") as [->|_]; [tauto|].
  destruct (String.eqb_spec key "type") as [->|_]; [|reflexivity].
  destruct Hkey as [Hc|Hn]; [|contradiction].
  rewrite Hc. reflexivity.
Qed.

Lemma effect_type_value_ignored_witness :
  validate (dict_set "effect_size"
              (VDict (dict_set "type" (VInt 7) effect_ok))
              (study (VInt 30) VNone)) =
  validate (dict_set "effect_size" (VDict effect_ok) (study (VInt 30) VNone)).
Proof.
  apply effect_type_value_ignored.
  - cbn. intros [H|[H|[H|[]]]]; discriminate H.
  - left. reflexivity.
Defined.

(* ===================================================================== *)
(** ** When the function raises *)
(* ===================================================================== *)

Lemma numeric_type_appended (d e : dict) (name : string) :
  effect_of d = Some e ->
  In name ["value"; "lower_ci"; "upper_ci"] ->
  is_none (dict_get e name) || isinstance_int_float (dict_get e name) = false ->
  In ("effect_size." ++ name ++ " must be numeric or null")%string (appended d).
Proof.
  intros He Hin Hflag. unfold appended, numeric_type_violations.
  rewrite He. rewrite !in_app_iff. do 4 right. left.
  apply in_flat_map. exists name. split; [exact Hin|].
  cbv zeta. rewrite Hflag. now left.
Qed.

(** X4: the function raises only on a record whose [effect_size] is a dict
    holding, under [value], [lower_ci] or [upper_ci], something that is
    neither null nor a number; and by then it has appended the
    numeric-type violation for that sub-field. *)
Theorem raise_follows_type_violation (d : dict) (x : exn) :
  validate d = Raise x ->
  exists e name,
    effect_of d = Some e /\
    In name ["value"; "lower_ci"; "upper_ci"] /\
    is_none (dict_get e name) || isinstance_int_float (dict_get e name) = false /\
    In ("effect_size." ++ name ++ " must be numeric or null")%string
       (errors_built d).
Proof.
  intros Hraise. rewrite errors_built_appended.
  destruct (effect_of d) as [e|] eqn:He.
  2:{ destruct (validate_returns_on_numbers d) as [errs Hret].
      - intros e He'. rewrite He in He'. discriminate.
      - rewrite Hret in Hraise. discriminate. }
  exists e.
  destruct (is_none (dict_get e "value") ||
            isinstance_int_float (dict_get e "value")) eqn:Hv.
  2:{ exists "value". repeat split; try assumption; [cbn; tauto|].
      apply (numeric_type_appended d e); [assumption|cbn; tauto|assumption]. }
  destruct (is_none (dict_get e "lower_ci") ||
            isinstance_int_float (dict_get e "lower_ci")) eqn:Hl.
  2:{ exists "lower_ci". repeat split; try assumption; [cbn; tauto|].
      apply (numeric_type_appended d e); [assumption|cbn; tauto|assumption]. }
  destruct (is_none (dict_get e "upper_ci") ||
            isinstance_int_float (dict_get e "upper_ci")) eqn:Hu.
  2:{ exists "upper_ci". repeat split; try assumption; [cbn; tauto|].
      apply (numeric_type_appended d e); [assumption|cbn; tauto|assumption]. }
  destruct (validate_returns_on_numbers d) as [errs Hret].
  - intros e' He' name Hin. rewrite He in He'. injection He' as <-.
    cbn in Hin. destruct Hin as [<-|[<-|[<-|[]]]]; assumption.
  - rewrite Hret in Hraise. discriminate.
Qed.

Lemma raise_follows_type_violation_witness :
  exists e name,
    effect_of (study (VInt 30) (VDict effect_string_bound)) = Some e /\
    In name ["value"; "lower_ci"; "upper_ci"] /\
    is_none (dict_get e name) || isinstance_int_float (dict_get e name) = false /\
    In ("effect_size." ++ name ++ " must be numeric or null")%string
       (errors_built (study (VInt 30) (VDict effect_string_bound))).
Proof.
  apply (raise_follows_type_violation _ TypeError). reflexivity.
Defined.

(* ===================================================================== *)
(** ** The order of numbers *)
(* ===================================================================== *)

(** Two binary fractions compare as their mantissas do once both are
    written with a common exponent. *)
Lemma fin_compare_scaled (m1 e1 m2 e2 E : Z) :
  E <= e1 -> E <= e2 ->
  fin_compare m1 e1 m2 e2 = (m1 * 2 ^ (e1 - E) ?= m2 * 2 ^ (e2 - E)).
Proof.
  intros H1 H2. unfold fin_compare.
  set (e := Z.min e1 e2).
  assert (E <= e) as HE by (unfold e; lia).
  assert (e <= e1 /\ e <= e2) as [He1 He2] by (unfold e; lia).
  replace (e1 - E) with ((e1 - e) + (e - E)) by lia.
  replace (e2 - E) with ((e2 - e) + (e - E)) by lia.
  rewrite !Z.pow_add_r by lia.
  rewrite !Z.mul_assoc.
  assert (0 < 2 ^ (e - E)) as Hp by (apply Z.pow_pos_nonneg; lia).
  set (p := 2 ^ (e - E)) in *.
  set (a := m1 * 2 ^ (e1 - e)). set (b := m2 * 2 ^ (e2 - e)).
  destruct (Z.compare_spec a b) as [Hab|Hab|Hab]; symmetry.
  - apply Z.compare_eq_iff. nia.
  - apply Z.compare_lt_iff. nia.
  - apply Z.compare_gt_iff. nia.
Qed.

Lemma number_compare_as_float (a b : number) :
  number_compare a b = float_compare (as_float a) (as_float b).
Proof.
  destruct a as [x|f], b as [y|g]; try reflexivity.
  cbn. unfold fin_compare. cbn. now rewrite !Z.mul_1_r.
Qed.

Lemma float_le_le_not_gt (a b c : pyfloat) :
  holds OpLe (float_compare a b) = true ->
  holds OpLe (float_compare b c) = true ->
  holds OpGt (float_compare a c) = false.
Proof.
  destruct a as [|sa|ma ea], b as [|sb|mb eb], c as [|sc|mc ec]; cbn;
    try discriminate; try reflexivity;
    repeat match goal with s : bool |- _ => destruct s end; cbn;
    try discriminate; try reflexivity.
  set (E := Z.min ea (Z.min eb ec)).
  rewrite (fin_compare_scaled ma ea mb eb E) by (unfold E; lia).
  rewrite (fin_compare_scaled mb eb mc ec E) by (unfold E; lia).
  rewrite (fin_compare_scaled ma ea mc ec E) by (unfold E; lia).
  destruct (Z.compare_spec (ma * 2 ^ (ea - E)) (mb * 2 ^ (eb - E)));
    destruct (Z.compare_spec (mb * 2 ^ (eb - E)) (mc * 2 ^ (ec - E)));
    destruct (Z.compare_spec (ma * 2 ^ (ea - E)) (mc * 2 ^ (ec - E)));
    cbn; try discriminate; try reflexivity; lia.
Qed.

(** No number lies between a lower bound and a smaller upper bound. *)
Lemma number_le_le_not_gt (a b c : number) :
  holds OpLe (number_compare a b) = true ->
  holds OpLe (number_compare b c) = true ->
  holds OpGt (number_compare a c) = false.
Proof. rewrite !number_compare_as_float. apply float_le_le_not_gt. Qed.

(** Only a number compares with a number. *)
Lemma py_compare_number_l (op : cmpop) (a b : value) (nb : number) (r : bool) :
  as_number b = Some nb -> py_compare op a b = Ok r ->
  exists na, as_number a = Some na.
Proof.
  destruct a; cbn; eauto; destruct b; cbn; discriminate.
Qed.

Lemma py_compare_number_r (op : cmpop) (a b : value) (na : number) (r : bool) :
  as_number a = Some na -> py_compare op a b = Ok r ->
  exists nb, as_number b = Some nb.
Proof.
  destruct a; cbn; try discriminate; intros _;
    destruct (as_number b); try discriminate; eauto.
Qed.

(* ===================================================================== *)
(** ** A reversed interval and its value *)
(* ===================================================================== *)

Lemma ci_message_origin (d : dict) :
  In "lower_ci cannot be greater than upper_ci" (appended d) ->
  exists e,
    effect_of d = Some e /\
    is_none (dict_get e "lower_ci") = false /\
    is_none (dict_get e "upper_ci") = false /\
    py_compare OpGt (dict_get e "lower_ci") (dict_get e "upper_ci") = Ok true.
Proof.
  intros H. apply in_appended in H.
  destruct H as [H|[H|[H|[H|[H|[H|H]]]]]].
  - apply in_missing_field in H. destruct H as [f H]. discriminate H.
  - apply in_sample_size in H. destruct H as [H|H]; discriminate H.
  - apply in_shape in H. discriminate H.
  - apply in_missing_subfield in H. destruct H as [k H]. discriminate H.
  - apply in_numeric_type in H. destruct H as (e & k & _ & _ & H).
    discriminate H.
  - unfold ci_ordering_violations, ci_check in H.
    destruct (effect_of d) as [e|]; [|destruct H].
    exists e. split; [reflexivity|].
    destruct (is_none (dict_get e "lower_ci")); [destruct H|].
    destruct (is_none (dict_get e "upper_ci")); [destruct H|].
    cbn [orb] in H.
    destruct (py_compare OpGt _ _) as [[|]|]; cbn in H;
      [repeat split | destruct H | destruct H].
  - apply in_value_in_range in H. discriminate H.
Qed.

(** X5: whenever the returned list holds the CI-ordering violation and
    [value] is a number, it holds the value-in-range violation too: no
    number lies between a lower bound and a smaller upper bound. *)
Theorem reversed_interval_excludes_value
  (d e : dict) (errs : list string) (nv : number) :
  validate d = Ok errs ->
  effect_of d = Some e ->
  as_number (dict_get e "value") = Some nv ->
  In "lower_ci cannot be greater than upper_ci" errs ->
  In "effect_size.value must be between lower_ci and upper_ci" errs.
Proof.
  intros Hret He Hv Hci.
  pose proof (returned_is_built _ _ Hret) as Hbuilt.
  rewrite errors_built_appended in Hbuilt.
  rewrite <- Hbuilt in Hci |- *.
  apply ci_message_origin in Hci.
  destruct Hci as (e' & He' & Hl & Hu & Hgt).
  rewrite He in He'. injection He' as <-.
  rewrite validate_sequence in Hret.
  unfold check_sequence, appended in *.
  unfold ci_ordering_violations, value_in_range_violations in *.
  rewrite He in *.
  destruct (ci_check _ _) as [ci|]; [|discriminate].
  destruct (range_check _ _ _) as [vr|] eqn:Hrange; [|discriminate].
  rewrite !in_app_iff. do 6 right. cbn [or_nil].
  unfold range_check in Hrange.
  assert (is_none (dict_get e "value") = false) as Hvn
    by (destruct (dict_get e "value"); try discriminate; reflexivity).
  rewrite Hvn, Hl, Hu in Hrange. cbn [orb] in Hrange.
  destruct (py_compare OpLe (dict_get e "lower_ci") (dict_get e "value"))
    as [[|]|] eqn:Hlv; try discriminate.
  2:{ injection Hrange as <-. now left. }
  destruct (py_compare OpLe (dict_get e "value") (dict_get e "upper_ci"))
    as [[|]|] eqn:Hvu; try discriminate.
  2:{ injection Hrange as <-. now left. }
  exfalso.
  destruct (py_compare_number_l _ _ _ _ _ Hv Hlv) as [nl Hnl].
  destruct (py_compare_number_r _ _ _ _ _ Hv Hvu) as [nu Hnu].
  rewrite (py_compare_numbers _ _ _ _ _ Hnl Hv) in Hlv.
  rewrite (py_compare_numbers _ _ _ _ _ Hv Hnu) in Hvu.
  rewrite (py_compare_numbers _ _ _ _ _ Hnl Hnu) in Hgt.
  assert (holds OpLe (number_compare nl nv) = true) as Hle1 by congruence.
  assert (holds OpLe (number_compare nv nu) = true) as Hle2 by congruence.
  rewrite (number_le_le_not_gt _ _ _ Hle1 Hle2) in Hgt. discriminate.
Qed.

Lemma reversed_interval_excludes_value_witness :
  In "effect_size.value must be between lower_ci and upper_ci"
     ["lower_ci cannot be greater than upper_ci";
      "effect_size.value must be between lower_ci and upper_ci"].
Proof.
  apply (reversed_interval_excludes_value
           (study (VInt 30) (VDict (effect_reversed (VInt 3))))
           (effect_reversed (VInt 3)) _ (NInt 3)).
  - reflexivity.
  - reflexivity.
  - reflexivity.
  - now left.
Defined.

(* ===================================================================== *)
(** ** Extracting the text of a response *)
(* ===================================================================== *)

Lemma scan_content_none (parts : list part) :
  scan_content parts = None <->
  forall c, In c parts -> is_text_part c = false.
Proof.
  induction parts as [|c rest IH]; cbn.
  - tauto.
  - destruct (is_text_part c) eqn:E.
    + split; [discriminate|]. intros H.
      specialize (H c (or_introl eq_refl)). congruence.
    + rewrite IH. split.
      * intros H x [<-|Hx]; auto.
      * intros H x Hx. apply H. now right.
Qed.

Lemma scan_content_find (parts : list part) :
  scan_content parts = option_map text (find is_text_part parts).
Proof.
  induction parts as [|c rest IH]; cbn; [reflexivity|].
  now destruct (is_text_part c).
Qed.

Lemma find_none_app {A} (p : A -> bool) (l l' : list A) :
  find p l = None -> find p (l ++ l') = find p l'.
Proof.
  induction l as [|a l IH]; cbn; [reflexivity|].
  destruct (p a); [discriminate | exact IH].
Qed.

Lemma find_some_app {A} (p : A -> bool) (l l' : list A) (a : A) :
  find p l = Some a -> find p (l ++ l') = Some a.
Proof.
  induction l as [|b l IH]; cbn; [discriminate|].
  destruct (p b); [tauto | exact IH].
Qed.

Lemma scan_output_no_text (items : list item) :
  scan_output items = Raised no_text <->
  forall it, In it items ->
    content_is_none it = false /\
    forall c, In c (parts_of it) -> is_text_part c = false.
Proof.
  induction items as [|it rest IH]; cbn [scan_output].
  - split; [intros _ it []|reflexivity].
  - unfold content_is_none, parts_of.
    destruct (content it) as [| |parts] eqn:Hc.
    + rewrite IH. split.
      * intros H x [<-|Hx]; [rewrite Hc; split; [reflexivity|intros c []]|].
        now apply H.
      * intros H x Hx. apply H. now right.
    + split; [discriminate|]. intros H.
      destruct (H it (or_introl eq_refl)) as [H' _].
      rewrite Hc in H'. discriminate.
    + destruct (scan_content parts) as [t|] eqn:Hs.
      * split; [discriminate|]. intros H.
        destruct (H it (or_introl eq_refl)) as [_ H'].
        rewrite Hc in H'. apply scan_content_none in H'. congruence.
      * rewrite IH. split.
        -- intros H x [<-|Hx]; [|now apply H].
           rewrite Hc. split; [reflexivity|]. now apply scan_content_none.
        -- intros H x Hx. apply H. now right.
Qed.

Lemma extract_output_text_no_text (r : response) :
  extract_output_text r = Raised no_text <->
  has_output_text r = false /\
  forall it, In it (output r) ->
    content_is_none it = false /\
    forall c, In c (parts_of it) -> is_text_part c = false.
Proof.
  unfold extract_output_text, has_output_text.
  destruct (output_text r) as [[|a t]|].
  - rewrite scan_output_no_text. tauto.
  - split; [discriminate | intros [H _]; discriminate].
  - rewrite scan_output_no_text. tauto.
Qed.

(** X6: the function raises [RuntimeError("Could not extract model output
    text.")] exactly when the response has no non-empty [output_text] and
    no item of [output] holds a part of type [output_text] or [text] (and
    none has [content] set to [None]). *)
Theorem no_text_iff (r : response) :
  extract_output_text r = Raised no_text <->
  has_output_text r = false /\
  forall it, In it (output r) ->
    content_is_none it = false /\
    forall c, In c (parts_of it) -> is_text_part c = false.
Proof. apply extract_output_text_no_text. Qed.

Lemma no_text_iff_witness :
  extract_output_text
    (mkResponse (Some "")
       [mkItem Missing; mkItem (Holds [mkPart "refusal" "no"])]) =
  Raised no_text.
Proof.
  apply no_text_iff. split; [reflexivity|].
  intros it [<-|[<-|[]]]; (split; [reflexivity|]).
  - intros c [].
  - intros c [<-|[]]. reflexivity.
Defined.

(** X7: without a non-empty [output_text], and with no [content] set to
    [None], the two nested loops return the text of the first part of type
    [output_text] or [text] in document order (items in order, parts in
    order within an item; items without [content] contribute nothing). *)
Theorem first_text_part_in_order (r : response) :
  has_output_text r = false ->
  (forall it, In it (output r) -> content_is_none it = false) ->
  extract_output_text r =
    match find is_text_part (flat_map parts_of (output r)) with
    | Some c => Returned (text c)
    | None => Raised no_text
    end.
Proof.
  unfold extract_output_text. intros -> Hnone.
  induction (output r) as [|it rest IH]; cbn [scan_output flat_map];
    [reflexivity|].
  assert (content_is_none it = false) as Hit by (apply Hnone; now left).
  assert (forall x, In x rest -> content_is_none x = false) as Hrest
    by (intros x Hx; apply Hnone; now right).
  unfold content_is_none, parts_of in *.
  destruct (content it) as [| |parts]; [now apply IH | discriminate |].
  rewrite scan_content_find.
  destruct (find is_text_part parts) as [c|] eqn:Hf; cbn.
  - now rewrite (find_some_app _ _ _ _ Hf).
  - rewrite (find_none_app _ _ _ Hf). now apply IH.
Qed.

Lemma first_text_part_in_order_witness :
  extract_output_text
    (mkResponse None
       [mkItem Missing;
        mkItem (Holds [mkPart "refusal" "no"; mkPart "text" "{}"]);
        mkItem (Holds [mkPart "output_text" "[]"])]) =
  Returned "{}".
Proof.
  rewrite first_text_part_in_order.
  - reflexivity.
  - reflexivity.
  - intros it [<-|[<-|[<-|[]]]]; reflexivity.
Defined.

(** X8: an item whose [content] is [None] ends the extraction in a
    [TypeError] as soon as the loop reaches it, even when a later item
    holds the text: the default of [getattr] only covers an absent
    attribute. *)
Theorem none_content_raises
  (r : response) (before after : list item) (it : item) :
  has_output_text r = false ->
  output r = before ++ it :: after ->
  content it = IsNone ->
  (forall x c, In x before -> In c (parts_of x) -> is_text_part c = false) ->
  (forall x, In x before -> content_is_none x = false) ->
  extract_output_text r = Raised not_iterable.
Proof.
  unfold extract_output_text. intros -> -> Hit Hparts Hnone.
  induction before as [|x before IH]; cbn [app scan_output].
  - now rewrite Hit.
  - assert (content_is_none x = false) as Hx by (apply Hnone; now left).
    assert (forall c, In c (parts_of x) -> is_text_part c = false) as Hxp
      by (intros c Hc; apply (Hparts x c); [now left | exact Hc]).
    unfold content_is_none, parts_of in Hx, Hxp.
    destruct (content x) as [| |parts]; [|discriminate|].
    + apply IH.
      * intros y c Hy. apply Hparts. now right.
      * intros y Hy. apply Hnone. now right.
    + apply scan_content_none in Hxp. rewrite Hxp. apply IH.
      * intros y c Hy. apply Hparts. now right.
      * intros y Hy. apply Hnone. now right.
Qed.

Lemma none_content_raises_witness :
  extract_output_text
    (mkResponse None
       [mkItem IsNone; mkItem (Holds [mkPart "output_text" "{}"])]) =
  Raised not_iterable.
Proof.
  apply (none_content_raises _ [] [mkItem (Holds [mkPart "output_text" "{}"])]
           (mkItem IsNone)).
  - reflexivity.
  - reflexivity.
  - reflexivity.
  - intros x c [].
  - intros x [].
Defined.

Lemma scan_output_returned (items : list item) (t : string) :
  scan_output items = Returned t ->
  exists it parts c,
    In it items /\ content it = Holds parts /\ In c parts /\
    is_text_part c = true /\ text c = t.
Proof.
  induction items as [|it rest IH]; cbn [scan_output]; [discriminate|].
  destruct (content it) as [| |parts] eqn:Hc; [|discriminate|].
  - intros H. destruct (IH H) as (x & ps & c & Hx & Hrest).
    exists x, ps, c. split; [now right | exact Hrest].
  - rewrite scan_content_find.
    destruct (find is_text_part parts) as [c|] eqn:Hf; cbn.
    + intros [= <-]. apply find_some in Hf. destruct Hf as [Hin Htext].
      exists it, parts, c. repeat split; try assumption. now left.
    + intros H. destruct (IH H) as (x & ps & c & Hx & Hrest).
      exists x, ps, c. split; [now right | exact Hrest].
Qed.

(** X9: a returned text is the response's own non-empty [output_text], or
    else, when there is none, the text of a part of type [output_text] or
    [text] of one of the items; [output] is not consulted in the first
    case. *)
Theorem returned_text_origin (r : response) (t : string) :
  extract_output_text r = Returned t ->
  (output_text r = Some t /\ t <> "") \/
  (has_output_text r = false /\
   exists it parts c,
     In it (output r) /\ content it = Holds parts /\ In c parts /\
     is_text_part c = true /\ text c = t).
Proof.
  unfold extract_output_text, has_output_text.
  destruct (output_text r) as [[|a s]|].
  - intros H. right. split; [reflexivity|]. now apply scan_output_returned.
  - intros [= <-]. left. split; [reflexivity | discriminate].
  - intros H. right. split; [reflexivity|]. now apply scan_output_returned.
Qed.

Lemma returned_text_origin_witness :
  (output_text (mkResponse (Some "{}") [mkItem IsNone]) = Some "{}" /\
   "{}" <> "") \/
  (has_output_text (mkResponse (Some "{}") [mkItem IsNone]) = false /\
   exists it parts c,
     In it (output (mkResponse (Some "{}") [mkItem IsNone])) /\
     content it = Holds parts /\ In c parts /\
     is_text_part c = true /\ text c = "{}").
Proof.
  apply returned_text_origin. reflexivity.
Defined.

(* ===================================================================== *)
(** ** The loop over the documents *)
(* ===================================================================== *)


Lemma document_results (c : client) (p : platform) (st : run) (pdf : string) :
  results (document c p st pdf) = results st ++ validated c p pdf.
Proof.
  unfold document, try_body, validated.
  destruct (process_pdf c p pdf) as [result|e];
    [destruct (validate_result p result) as [error_check|e];
       [destruct (Nat.eqb (length error_check) 0);
          [destruct (open_error p (valid_output_path p pdf));
             [|destruct (dump_error p (valid_output_path p pdf) result)]
          |destruct (open_error p (invalid_output_path p pdf));
             [|destruct (dump_error p (invalid_output_path p pdf) result)]]|]|];
    unfold print, results_append, dump, spoil;
    cbn [files console results truncated];
    rewrite ?app_nil_r; reflexivity.
Qed.

(** What one turn of the loop does to the files. *)
Lemma document_files (c : client) (p : platform) (st : run) (pdf : string) :
  (files (document c p st pdf) = files st /\
   truncated (document c p st pdf) = truncated st /\
   (validated c p pdf = [] \/
    exists v errs e,
      process_pdf c p pdf = Returned v /\
      validate_result p v = Returned errs /\
      open_error p (routed_path p pdf errs) = Some e)) \/
  exists v errs,
    process_pdf c p pdf = Returned v /\
    validate_result p v = Returned errs /\
    open_error p (routed_path p pdf errs) = None /\
    ((dump_error p (routed_path p pdf errs) v = None /\
      files (document c p st pdf) =
        (routed_path p pdf errs, v) ::
        unlink (routed_path p pdf errs) (files st) /\
      truncated (document c p st pdf) =
        forget (routed_path p pdf errs) (truncated st)) \/
     (exists e,
        dump_error p (routed_path p pdf errs) v = Some e /\
        files (document c p st pdf) =
          unlink (routed_path p pdf errs) (files st) /\
        truncated (document c p st pdf) =
          routed_path p pdf errs :: truncated st)).
Proof.
  unfold document, try_body, validated.
  destruct (process_pdf c p pdf) as [result|e].
  2:{ left. cbn. auto. }
  destruct (validate_result p result) as [errs|e] eqn:Hr.
  2:{ left. cbn. auto. }
  assert (routed_path p pdf errs =
          if Nat.eqb (length errs) 0 then valid_output_path p pdf
          else invalid_output_path p pdf) as Hroute by reflexivity.
  destruct (Nat.eqb (length errs) 0).
  - destruct (open_error p (valid_output_path p pdf)) as [e|] eqn:Ho.
    + left. cbn [files truncated print results_append].
      repeat split. right. exists result, errs, e. rewrite Hroute. auto.
    + right. exists result, errs. rewrite Hroute.
      repeat split; try assumption.
      destruct (dump_error p (valid_output_path p pdf) result) as [e|];
        [right; exists e | left]; repeat split.
  - destruct (open_error p (invalid_output_path p pdf)) as [e|] eqn:Ho.
    + left. cbn [files truncated print results_append].
      repeat split. right. exists result, errs, e. rewrite Hroute. auto.
    + right. exists result, errs. rewrite Hroute.
      repeat split; try assumption.
      destruct (dump_error p (invalid_output_path p pdf) result) as [e|];
        [right; exists e | left]; repeat split.
Qed.

Lemma main_loop_step (c : client) (p : platform) (pdfs : list string)
  (pdf : string) (st : run) :
  main_loop c p (pdf :: pdfs) st = main_loop c p pdfs (document c p st pdf).
Proof. reflexivity. Qed.

Lemma main_loop_last (c : client) (p : platform) (pdfs : list string)
  (pdf : string) (st : run) :
  main_loop c p (pdfs ++ [pdf]) st = document c p (main_loop c p pdfs st) pdf.
Proof. unfold main_loop. now rewrite fold_left_app. Qed.


Lemma main_loop_results (c : client) (p : platform) (pdfs : list string)
  (st : run) :
  results (main_loop c p pdfs st) =
  results st ++ flat_map (validated c p) pdfs.
Proof.
  revert st. induction pdfs as [|pdf rest IH]; intros st.
  - cbn [main_loop fold_left flat_map]. now rewrite app_nil_r.
  - rewrite main_loop_step, IH, document_results. cbn [flat_map].
    now rewrite <- app_assoc.
Qed.

Lemma in_unlink (path q : string) (w : value) (fs : list (string * value)) :
  In (q, w) (unlink path fs) <-> In (q, w) fs /\ q <> path.
Proof.
  unfold unlink. rewrite filter_In. cbn [fst].
  destruct (String.eqb_spec q path) as [->|Hne]; cbn; split;
    try tauto; intros [_ H]; discriminate.
Qed.

Lemma read_unlink (path : string) (fs : list (string * value)) :
  read (unlink path fs) path = None.
Proof.
  induction fs as [|[q w] fs IH]; cbn; [reflexivity|].
  destruct (String.eqb_spec q path) as [->|Hne]; cbn; [exact IH|].
  destruct (String.eqb_spec q path); [contradiction | exact IH].
Qed.


Lemma results_origin (c : client) (p : platform) (pdfs : list string)
  (v : value) :
  In v (flat_map (validated c p) pdfs) ->
  exists pdf errs,
    In pdf pdfs /\ process_pdf c p pdf = Returned v /\
    validate_result p v = Returned errs.
Proof.
  intros Hv. apply in_flat_map in Hv. destruct Hv as (pdf & Hpdf & Hv).
  unfold validated in Hv.
  destruct (process_pdf c p pdf) as [result|e] eqn:Hp; [|destruct Hv].
  destruct (validate_result p result) as [errs|e] eqn:Hr; [|destruct Hv].
  destruct Hv as [<-|[]]. exists pdf, errs. auto.
Qed.

Lemma validated_of (c : client) (p : platform) (pdf : string) (v : value)
  (errs : list string) :
  process_pdf c p pdf = Returned v ->
  validate_result p v = Returned errs ->
  validated c p pdf = [v].
Proof. intros Hp Hr. unfold validated. now rewrite Hp, Hr. Qed.

(** A file that holds a record after one turn held it before, or was
    written in this turn. *)
Lemma document_files_origin (c : client) (p : platform) (st : run)
  (pdf path : string) (v : value) :
  In (path, v) (files (document c p st pdf)) ->
  In (path, v) (files st) \/
  exists errs,
    process_pdf c p pdf = Returned v /\
    validate_result p v = Returned errs /\
    path = routed_path p pdf errs /\
    open_error p path = None /\
    dump_error p path v = None.
Proof.
  intros H.
  destruct (document_files c p st pdf)
    as [(Hf & _)|(w & errs & Hp & Hr & Ho & [(Hd & Hf & _)|(e & Hd & Hf & _)])];
    rewrite Hf in H.
  - now left.
  - destruct H as [[= <- <-]|H].
    + right. exists errs. auto.
    + left. now apply in_unlink in H.
  - left. now apply in_unlink in H.
Qed.

Lemma main_loop_files_origin (c : client) (p : platform)
  (pdfs : list string) (st : run) (path : string) (v : value) :
  In (path, v) (files (main_loop c p pdfs st)) ->
  In (path, v) (files st) \/
  exists pdf errs,
    In pdf pdfs /\
    process_pdf c p pdf = Returned v /\
    validate_result p v = Returned errs /\
    path = routed_path p pdf errs /\
    open_error p path = None /\
    dump_error p path v = None.
Proof.
  revert st. induction pdfs as [|pdf rest IH]; intros st H.
  - now left.
  - rewrite main_loop_step in H. apply IH in H.
    destruct H as [H|(pdf' & errs & Hin & Hrest)].
    + apply document_files_origin in H.
      destruct H as [H|(errs & Hrest)]; [now left|].
      right. exists pdf, errs. split; [now left | exact Hrest].
    + right. exists pdf', errs. split; [now right | exact Hrest].
Qed.



(** X11: [results] collects, in the order of the documents, the record of
    every document whose extraction and validation both returned, whether
    the record was found valid or not and whether its file could be
    written or not; the other documents contribute nothing. *)
Theorem results_are_the_validated_records (c : client) (p : platform)
  (pdfs : list string) (st : run) :
  results (main_loop c p pdfs st) =
    results st ++ flat_map (validated c p) pdfs /\
  (forall v, In v (results (main_loop c p pdfs st)) ->
     In v (results st) \/
     exists pdf errs,
       In pdf pdfs /\ process_pdf c p pdf = Returned v /\
       validate_result p v = Returned errs).
Proof.
  rewrite main_loop_results. split; [reflexivity|].
  intros v Hv. apply in_app_or in Hv. destruct Hv as [Hv|Hv]; [now left|].
  right. now apply results_origin.
Qed.

Lemma results_are_the_validated_records_witness :
  results (main_loop sample_client sample_platform
             ["low.pdf"; "bad.pdf"; "good.pdf"] empty_run) =
  [VDict (study (VInt (-5)) (VDict effect_ok));
   VDict (study (VInt 30) (VDict effect_ok))].
Proof.
  destruct (results_are_the_validated_records sample_client sample_platform
              ["low.pdf"; "bad.pdf"; "good.pdf"] empty_run) as [H _].
  rewrite H. reflexivity.
Defined.

(** X12: every file that holds a record after the loop and did not before
    holds the record extracted from one of the documents, on which the
    validation returned and for which [open] and [json.dump] both
    succeeded; it lies under [output] when the violation list is empty and
    under [invalid_output] otherwise, at the path built from the
    document's base name; and the record is in [results]. *)
Theorem files_are_routed_by_validation (c : client) (p : platform)
  (pdfs : list string) (st : run) (path : string) (v : value) :
  In (path, v) (files (main_loop c p pdfs st)) ->
  In (path, v) (files st) \/
  exists pdf errs,
    In pdf pdfs /\
    process_pdf c p pdf = Returned v /\
    validate_result p v = Returned errs /\
    ((errs = [] /\ path = valid_output_path p pdf) \/
     (errs <> [] /\ path = invalid_output_path p pdf)) /\
    open_error p path = None /\
    dump_error p path v = None /\
    In v (results (main_loop c p pdfs st)).
Proof.
  intros H. apply main_loop_files_origin in H.
  destruct H as [H|(pdf & errs & Hin & Hp & Hr & Hpath & Ho & Hd)];
    [now left|].
  right. exists pdf, errs. repeat split; try assumption.
  - unfold routed_path in Hpath. destruct errs as [|x errs]; cbn in Hpath.
    + now left.
    + right. split; [discriminate | exact Hpath].
  - rewrite main_loop_results. apply in_or_app. right.
    apply in_flat_map. exists pdf. split; [exact Hin|].
    rewrite (validated_of _ _ _ _ _ Hp Hr). now left.
Qed.

Lemma files_are_routed_by_validation_witness :
  In ("invalid_output/low.json",
      VDict (study (VInt (-5)) (VDict effect_ok)))
     (files empty_run) \/
  exists pdf errs,
    In pdf ["good.pdf"; "low.pdf"] /\
    process_pdf sample_client sample_platform pdf =
      Returned (VDict (study (VInt (-5)) (VDict effect_ok))) /\
    validate_result sample_platform
      (VDict (study (VInt (-5)) (VDict effect_ok))) = Returned errs /\
    ((errs = [] /\
      "invalid_output/low.json" = valid_output_path sample_platform pdf) \/
     (errs <> [] /\
      "invalid_output/low.json" = invalid_output_path sample_platform pdf)) /\
    open_error sample_platform "invalid_output/low.json" = None /\
    dump_error sample_platform "invalid_output/low.json"
      (VDict (study (VInt (-5)) (VDict effect_ok))) = None /\
    In (VDict (study (VInt (-5)) (VDict effect_ok)))
       (results (main_loop sample_client sample_platform
                   ["good.pdf"; "low.pdf"] empty_run)).
Proof.
  apply files_are_routed_by_validation.
  left. reflexivity.
Defined.

(** X13: a record on which the validation raises (a dict with a
    non-numeric bound, or a JSON value that is not a dict) is dropped: the
    loop neither writes it to a file nor adds it to [results]. *)
Theorem raising_record_is_dropped (c : client) (p : platform)
  (pdfs : list string) (st : run) (v : value) (e : exception) :
  validate_result p v = Raised e ->
  (In v (results (main_loop c p pdfs st)) -> In v (results st)) /\
  (forall path, In (path, v) (files (main_loop c p pdfs st)) ->
     In (path, v) (files st)).
Proof.
  intros Hraise. split.
  - rewrite main_loop_results.
    intros H. apply in_app_or in H. destruct H as [H|H]; [exact H|].
    destruct (results_origin _ _ _ _ H) as (pdf & errs & _ & _ & Hr).
    rewrite Hraise in Hr. discriminate.
  - intros path H. apply main_loop_files_origin in H.
    destruct H as [H|(pdf & errs & _ & _ & Hr & _)]; [exact H|].
    rewrite Hraise in Hr. discriminate.
Qed.

Lemma raising_record_is_dropped_witness :
  (In (VDict (study (VInt 30) (VDict effect_string_bound)))
      (results (main_loop sample_client sample_platform
                  ["bad.pdf"; "good.pdf"] empty_run)) ->
   In (VDict (study (VInt 30) (VDict effect_string_bound)))
      (results empty_run)) /\
  (forall path,
     In (path, VDict (study (VInt 30) (VDict effect_string_bound)))
        (files (main_loop sample_client sample_platform
                  ["bad.pdf"; "good.pdf"] empty_run)) ->
     In (path, VDict (study (VInt 30) (VDict effect_string_bound)))
        (files empty_run)).
Proof.
  apply (raising_record_is_dropped sample_client sample_platform _ _ _
           (mkException "TypeError"
              "'>' not supported between instances of 'str' and 'float'")).
  reflexivity.
Defined.

(** X14: the last write wins.  When the file of the last document can be
    opened, it holds after the loop the record of that document if
    [json.dump] ran to its end, and no record at all if [json.dump]
    raised, whatever the earlier documents wrote at that path (documents
    with the same base name and the same verdict share one path). *)
Theorem last_write_wins (c : client) (p : platform) (pdfs : list string)
  (pdf : string) (st : run) (v : value) (errs : list string) (path : string) :
  process_pdf c p pdf = Returned v ->
  validate_result p v = Returned errs ->
  path = (if Nat.eqb (length errs) 0 then valid_output_path p pdf
          else invalid_output_path p pdf) ->
  open_error p path = None ->
  read (files (main_loop c p (pdfs ++ [pdf]) st)) path =
    match dump_error p path v with
    | None => Some v
    | Some _ => None
    end.
Proof.
  intros Hp Hr Hpath Hopen. rewrite main_loop_last.
  set (before := main_loop c p pdfs st).
  destruct (document_files c p before pdf)
    as [(_ & _ & [Hnone|(w & errs' & e & Hp' & Hr' & Ho')])
       |(w & errs' & Hp' & Hr' & Ho' & Hcase)].
  - rewrite (validated_of _ _ _ _ _ Hp Hr) in Hnone. discriminate.
  - rewrite Hp in Hp'. injection Hp' as <-.
    rewrite Hr in Hr'. injection Hr' as <-.
    unfold routed_path in Ho'. rewrite <- Hpath, Hopen in Ho'. discriminate.
  - rewrite Hp in Hp'. injection Hp' as <-.
    rewrite Hr in Hr'. injection Hr' as <-.
    unfold routed_path in Hcase. rewrite <- Hpath in Hcase.
    destruct Hcase as [(Hd & Hf & _)|(e & Hd & Hf & _)]; rewrite Hd, Hf.
    + cbn [read]. now rewrite String.eqb_refl.
    + apply read_unlink.
Qed.

Lemma last_write_wins_witness :
  read (files (main_loop sample_client sample_platform
                 (["a/trial.pdf"] ++ ["b/trial.pdf"]) empty_run))
       "output/trial.json" =
  Some (VDict (study (VInt 40) (VDict effect_ok))) /\
  read (files (main_loop sample_client sample_platform ["a/trial.pdf"]
                 empty_run))
       "output/trial.json" =
  Some (VDict (study (VInt 30) (VDict effect_ok))).
Proof.
  split.
  - apply (last_write_wins sample_client sample_platform ["a/trial.pdf"]
             "b/trial.pdf" empty_run _ []); reflexivity.
  - apply (last_write_wins sample_client sample_platform []
             "a/trial.pdf" empty_run _ []); reflexivity.
Defined.

(** X15: when the response carries no text (no non-empty [output_text],
    no part of type [output_text] or [text]), the document is reported
    with the line [[ERROR] Failed on <pdf>: Could not extract model output
    text.], nothing is written and [results] is unchanged. *)
Theorem response_without_text_is_reported (c : client) (p : platform)
  (st : run) (pdf file_id : string) (r : response) :
  files_create c pdf = Returned file_id ->
  responses_create c file_id = Returned r ->
  has_output_text r = false ->
  (forall it, In it (output r) ->
     content_is_none it = false /\
     forall part, In part (parts_of it) -> is_text_part part = false) ->
  document c p st pdf =
  mkRun (files st)
        (console st ++
         [("[INFO] Processing " ++ pdf ++ "...")%string;
          ("[ERROR] Failed on " ++ pdf ++
           ": Could not extract model output text.")%string])
        (results st)
        (truncated st).
Proof.
  intros Hup Hresp Hno Hitems.
  assert (process_pdf c p pdf = Raised no_text) as Hp.
  { unfold process_pdf. rewrite Hup. cbn [and_then]. rewrite Hresp.
    cbn [and_then].
    rewrite (proj2 (extract_output_text_no_text r) (conj Hno Hitems)).
    reflexivity. }
  unfold document, try_body. rewrite Hp.
  unfold print. cbn [files console results truncated exc_str no_text].
  now rewrite <- app_assoc.
Qed.

Lemma response_without_text_is_reported_witness :
  document silent_client sample_platform empty_run "scan.pdf" =
  mkRun []
        ["[INFO] Processing scan.pdf...";
         "[ERROR] Failed on scan.pdf: Could not extract model output text."]
        [] [].
Proof.
  apply (response_without_text_is_reported silent_client sample_platform
           empty_run "scan.pdf" "scan.pdf" (mkResponse None [mkItem Missing])).
  - reflexivity.
  - reflexivity.
  - reflexivity.
  - intros it [<-|[]]. split; [reflexivity|]. intros part [].
Defined.

Lemma document_keeps_other_files (c : client) (p : platform) (st : run)
  (pdf q : string) (w : value) :
  In (q, w) (files st) ->
  q <> valid_output_path p pdf -> q <> invalid_output_path p pdf ->
  In (q, w) (files (document c p st pdf)).
Proof.
  intros Hin Hv Hi.
  assert (forall errs, q <> routed_path p pdf errs) as Hq.
  { intros errs. unfold routed_path.
    destruct (Nat.eqb (length errs) 0); assumption. }
  destruct (document_files c p st pdf)
    as [(Hf & _)|(v & errs & _ & _ & _ & [(_ & Hf & _)|(e & _ & Hf & _)])];
    rewrite Hf.
  - exact Hin.
  - right. apply in_unlink. split; [exact Hin | apply Hq].
  - apply in_unlink. split; [exact Hin | apply Hq].
Qed.

(** X16: one turn of the loop appends at most one record to [results] and
    touches at most one path: it leaves the files as they were, or puts
    the record it appended into one file in place of what that path held,
    or, when [json.dump] raises, leaves that one path with a text cut
    short.  No file is written without its record being appended, and
    through the whole loop a file keeps its record unless its path is the
    output path of one of the documents. *)
Theorem at_most_one_file_per_document (c : client) (p : platform)
  (pdfs : list string) (st : run) (pdf : string) :
  ((results (document c p st pdf) = results st /\
    files (document c p st pdf) = files st /\
    truncated (document c p st pdf) = truncated st) \/
   exists v,
     results (document c p st pdf) = results st ++ [v] /\
     ((files (document c p st pdf) = files st /\
       truncated (document c p st pdf) = truncated st) \/
      exists path,
        (files (document c p st pdf) = (path, v) :: unlink path (files st) /\
         truncated (document c p st pdf) = forget path (truncated st)) \/
        (files (document c p st pdf) = unlink path (files st) /\
         truncated (document c p st pdf) = path :: truncated st))) /\
  (forall q w,
     In (q, w) (files st) ->
     (forall doc, In doc pdfs ->
        q <> valid_output_path p doc /\ q <> invalid_output_path p doc) ->
     In (q, w) (files (main_loop c p pdfs st))).
Proof.
  split.
  - rewrite document_results.
    destruct (document_files c p st pdf)
      as [(Hf & Ht & [Hnone|(v & errs & e & Hp & Hr & _)])
         |(v & errs & Hp & Hr & _ & Hcase)].
    + left. rewrite Hnone, app_nil_r. auto.
    + right. exists v. rewrite (validated_of _ _ _ _ _ Hp Hr). auto.
    + right. exists v. rewrite (validated_of _ _ _ _ _ Hp Hr).
      split; [reflexivity|]. right. exists (routed_path p pdf errs).
      destruct Hcase as [(_ & Hf & Ht)|(e & _ & Hf & Ht)]; auto.
  - revert st. induction pdfs as [|doc rest IH]; intros st q w Hin Hother.
    + exact Hin.
    + rewrite main_loop_step. apply IH.
      * destruct (Hother doc (or_introl eq_refl)) as [Hv Hi].
        now apply document_keeps_other_files.
      * intros doc' Hdoc'. apply Hother. now right.
Qed.

Lemma at_most_one_file_per_document_witness :
  In ("output/good.json", VDict (study (VInt 30) (VDict effect_ok)))
     (files (main_loop sample_client sample_platform
               ["low.pdf"; "a/trial.pdf"]
               (main_loop sample_client sample_platform ["good.pdf"]
                  empty_run))).
Proof.
  destruct (at_most_one_file_per_document sample_client sample_platform
              ["low.pdf"; "a/trial.pdf"]
              (main_loop sample_client sample_platform ["good.pdf"] empty_run)
              "low.pdf") as [_ Hkeep].
  apply Hkeep.
  - left. reflexivity.
  - intros doc [<-|[<-|[]]]; split; discriminate.
Defined.
